(** * Nintendo NES loader (nintendo_nes.py): shallow embedding and properties

    The loader is an IDAPython script.  Its functions read a seekable input
    (the [li] object), and write into the host's analysis database through
    [idc]/[idaapi] calls.  The embedding threads one explicit [world] through
    every call: the read position of [li], the segments requested so far, the
    database bytes, the list of [file2base] requests, the texts passed to
    [Warning], and a log of the remaining annotation calls.  A Python
    exception is the left summand of the result; the world reached when it
    was raised is kept, as the database keeps what was written before.

    Host model.  The functions of [idc]/[idaapi] are not part of the script.
    They are modelled at the level of the requests the script makes:
    - [AddSeg] records the requested range, [RenameSeg ea] names the most
      recently created segment that contains [ea];
    - [PatchByte] stores one byte;
    - [file2base pos ea1 ea2] loads the bytes of the input that exist in
      [pos, pos + (ea2 - ea1)) at [ea1] onwards and answers 1 when the whole
      range was read and 0 otherwise (a read error of the host);
    - names that the script uses unqualified and that belong to the host
      ([Warning], [Word], [MakeNameEx], ...) resolve; a name that neither
      the host nor the script binds raises [NameError]. *)

From Stdlib Require Import ZArith List String Ascii Lia.
From Stdlib Require Import Strings.Byte Numbers.DecimalString.
From stdpp Require Import base gmap list strings.

Local Open Scope Z_scope.

(** ** Bytes and Python values *)

Abbreviation byte := Byte.byte.

#[global] Instance byte_eq_decision : EqDecision byte := Byte.byte_eq_dec.

Definition byte_to_Z (b : byte) : Z := Z.of_N (Byte.to_N b).

(** A Python 2 [str] read from the input is a sequence of bytes. *)
Abbreviation pystr := (list byte).

Inductive exn : Type :=
  | NameError (name : string)
  | ValueError (msg : string)
  | StructError (msg : string).

(** ** Module-level constants (lines 6-56) *)

Definition ROM_SIGNATURE_OFFSET : Z := 0.
Definition ROM_SIGNATURE : pystr := [Byte.x4e; Byte.x45; Byte.x53; Byte.x1a].
Definition ROM_FORMAT_NAME : string := "Nintendo NES ROM".
Definition ROM_SIGNATURE_LENGTH : Z := 4.
Definition HEADER_SIZE : Z := 16.

(** [NES_HEADER._fields_] with the [ctypes] size of each field; every field
    is made of single bytes, so the structure has no padding. *)
Definition NES_HEADER_fields : list (string * Z) :=
  [ ("magic", 4); ("nb_prg_page_16k", 1); ("nb_chr_page_8k", 1);
    ("rom_control_byte_0", 1); ("rom_control_byte_1", 1);
    ("nb_prg_page_8k", 1); ("reserved", 7) ]%string.

Definition ctypes_sizeof (fields : list (string * Z)) : Z :=
  fold_right (fun f acc => snd f + acc) 0 fields.

Definition LEN_NES_HEADER : Z := Eval cbv in ctypes_sizeof NES_HEADER_fields.

Definition RAM_START : Z := 0x0.
Definition RAM_SIZE : Z := 0x2000.
Definition IOREG_START : Z := 0x2000.
Definition IOREG_SIZE : Z := 0x2020.
Definition EXPROM_START : Z := 0x4020.
Definition EXPROM_SIZE : Z := 0x1FE0.
Definition SRAM_START : Z := 0x6000.
Definition SRAM_SIZE : Z := 0x2000.
Definition TRAINER_START : Z := 0x7000.
Definition TRAINER_SIZE : Z := 0x0200.
Definition ROM_START : Z := 0x8000.
Definition ROM_SIZE : Z := 0x8000.

Definition PRG_PAGE_SIZE : Z := 0x4000.
Definition CHR_PAGE_SIZE : Z := 0x2000.

Definition MAPPER_NONE : Z := 0.
Definition MAPPER_MMC1 : Z := 1.
Definition MAPPER_UxROM : Z := 2.
Definition MAPPER_CNROM : Z := 3.
Definition MAPPER_MMC3 : Z := 4.
Definition MAPPER_MMC5 : Z := 5.
Definition MAPPER_AxROM : Z := 7.
Definition MAPPER_MMC2 : Z := 9.
Definition MAPPER_MMC4 : Z := 10.
Definition MAPPER_COLOR_DREAMS : Z := 11.
Definition MAPPER_CPROM : Z := 13.
Definition MAPPER_BxROM : Z := 34.
Definition MAPPER_GNROM : Z := 66.
Definition MAPPER_CAMERICA : Z := 71.
Definition MAPPER_TLSROM : Z := 118.
Definition MAPPER_TQROM : Z := 119.

(** The integer names the module binds, as the interpreter sees them when a
    function body looks a global up by name. *)
Definition module_globals : gmap string Z :=
  list_to_map
    [ ("ROM_SIGNATURE_OFFSET", ROM_SIGNATURE_OFFSET);
      ("ROM_SIGNATURE_LENGTH", ROM_SIGNATURE_LENGTH);
      ("HEADER_SIZE", HEADER_SIZE);
      ("LEN_NES_HEADER", LEN_NES_HEADER);
      ("RAM_START", RAM_START); ("RAM_SIZE", RAM_SIZE);
      ("IOREG_START", IOREG_START); ("IOREG_SIZE", IOREG_SIZE);
      ("EXPROM_START", EXPROM_START); ("EXPROM_SIZE", EXPROM_SIZE);
      ("SRAM_START", SRAM_START); ("SRAM_SIZE", SRAM_SIZE);
      ("TRAINER_START", TRAINER_START); ("TRAINER_SIZE", TRAINER_SIZE);
      ("ROM_START", ROM_START); ("ROM_SIZE", ROM_SIZE);
      ("PRG_PAGE_SIZE", PRG_PAGE_SIZE); ("CHR_PAGE_SIZE", CHR_PAGE_SIZE);
      ("MAPPER_NONE", MAPPER_NONE); ("MAPPER_MMC1", MAPPER_MMC1);
      ("MAPPER_UxROM", MAPPER_UxROM); ("MAPPER_CNROM", MAPPER_CNROM);
      ("MAPPER_MMC3", MAPPER_MMC3); ("MAPPER_MMC5", MAPPER_MMC5);
      ("MAPPER_AxROM", MAPPER_AxROM); ("MAPPER_MMC2", MAPPER_MMC2);
      ("MAPPER_MMC4", MAPPER_MMC4);
      ("MAPPER_COLOR_DREAMS", MAPPER_COLOR_DREAMS);
      ("MAPPER_CPROM", MAPPER_CPROM); ("MAPPER_BxROM", MAPPER_BxROM);
      ("MAPPER_GNROM", MAPPER_GNROM); ("MAPPER_CAMERICA", MAPPER_CAMERICA);
      ("MAPPER_TLSROM", MAPPER_TLSROM); ("MAPPER_TQROM", MAPPER_TQROM)
    ]%string.

(** ** The world: loader input position and analysis database *)

Record segment : Type := Segment {
  seg_start : Z;
  seg_end : Z;
  seg_name : string
}.

Inductive host_call : Type :=
  | SetProcessorType (name : string) (level : list string)
  | SetSegmentType (ea : Z) (segtype : list string)
  | Describe (ea : Z) (isprev : bool) (text : string)
  | MakeNameExCall (ea : Z) (name : string) (flags : list string)
  | MakeWordCall (ea : Z)
  | AddEntry (ord ea : Z) (name : string) (makecode : Z)
  | SetStartIP (ea : Z)
  | SetBeginEA (ea : Z).

Record world : Type := World {
  li_pos : Z;                       (* read position of [li] *)
  segs : list segment;              (* requested segments, newest first *)
  bytes : gmap Z byte;              (* database bytes *)
  loaded : list (Z * Z * Z);        (* [file2base] requests (pos, ea1, ea2), newest first *)
  warnings : list string;           (* texts passed to [Warning], newest first *)
  host_log : list host_call         (* other host calls, newest first *)
}.

Definition fresh : world :=
  {| li_pos := 0; segs := []; bytes := ∅; loaded := []; warnings := [];
     host_log := [] |}.

Definition upd_pos (f : Z -> Z) (w : world) : world :=
  {| li_pos := f (li_pos w); segs := segs w; bytes := bytes w;
     loaded := loaded w; warnings := warnings w; host_log := host_log w |}.
Definition upd_segs (f : list segment -> list segment) (w : world) : world :=
  {| li_pos := li_pos w; segs := f (segs w); bytes := bytes w;
     loaded := loaded w; warnings := warnings w; host_log := host_log w |}.
Definition upd_bytes (f : gmap Z byte -> gmap Z byte) (w : world) : world :=
  {| li_pos := li_pos w; segs := segs w; bytes := f (bytes w);
     loaded := loaded w; warnings := warnings w; host_log := host_log w |}.
Definition upd_loaded (f : list (Z * Z * Z) -> list (Z * Z * Z)) (w : world) : world :=
  {| li_pos := li_pos w; segs := segs w; bytes := bytes w;
     loaded := f (loaded w); warnings := warnings w; host_log := host_log w |}.
Definition upd_warnings (f : list string -> list string) (w : world) : world :=
  {| li_pos := li_pos w; segs := segs w; bytes := bytes w;
     loaded := loaded w; warnings := f (warnings w); host_log := host_log w |}.
Definition upd_log (f : list host_call -> list host_call) (w : world) : world :=
  {| li_pos := li_pos w; segs := segs w; bytes := bytes w;
     loaded := loaded w; warnings := warnings w; host_log := f (host_log w) |}.

(** The regions of the address space in creation order. *)
Definition regions (w : world) : list segment := rev (segs w).

(** ** The loader monad: state and exceptions *)

Definition M (A : Type) : Type := world -> world * (exn + A).

Definition ret {A} (a : A) : M A := fun w => (w, inr a).
Definition raise {A} (e : exn) : M A := fun w => (w, inl e).
Definition bind {A B} (m : M A) (k : A -> M B) : M B :=
  fun w => match m w with
           | (w', inr a) => k a w'
           | (w', inl e) => (w', inl e)
           end.

Declare Scope loader_scope.
Delimit Scope loader_scope with loader.
Notation "x <- m ;; k" := (bind m (fun x => k))
  (at level 100, m at next level, right associativity) : loader_scope.
Notation "m ;; k" := (bind m (fun _ => k))
  (at level 100, right associativity) : loader_scope.
Local Open Scope loader_scope.

Definition modify (f : world -> world) : M unit := fun w => (f w, inr tt).
Definition gets {A} (f : world -> A) : M A := fun w => (w, inr (f w)).

(** Evaluation of a global name inside a function body. *)
Definition global (name : string) : M Z :=
  match module_globals !! name with
  | Some v => ret v
  | None => raise (NameError name)
  end.

(** [a or b]: the right operand is evaluated only when the left one is false. *)
Definition py_or (a b : M bool) : M bool :=
  x <- a ;; if x then ret true else b.

(** [for i in xrange(lo, hi): body i].  Python 2 refuses arguments that do
    not fit a C long; every bound the script passes is one of its small
    constants, and statements about an arbitrary bound carry that limit as a
    hypothesis. *)
Fixpoint for_from (i : Z) (n : nat) (body : Z -> M unit) : M unit :=
  match n with
  | O => ret tt
  | S n' => body i ;; for_from (i + 1) n' body
  end.
Definition for_xrange (lo hi : Z) (body : Z -> M unit) : M unit :=
  for_from lo (Z.to_nat (hi - lo)) body.

(** ** Text formatting used by the script *)

Definition hex_digit (d : Z) : ascii :=
  if d <? 10 then ascii_of_N (Z.to_N (48 + d)) else ascii_of_N (Z.to_N (55 + d)).

(** ["%02X" % v] for a value of one byte. *)
Definition fmt_02X (v : Z) : string :=
  String (hex_digit (v / 16)) (String (hex_digit (v mod 16)) EmptyString).

(** ["%d" % v] *)
Definition fmt_d (v : Z) : string := NilZero.string_of_int (Z.to_int v).

(** ["%s" % s] for a byte string. *)
Definition fmt_s (s : pystr) : string := string_of_list_byte s.

(** ** The loader input [li] *)

Inductive whence : Type := SEEK_SET | SEEK_END.

Definition li_seek (li : pystr) (off : Z) (wh : whence) : M unit :=
  modify (upd_pos (fun _ => match wh with
                            | SEEK_SET => off
                            | SEEK_END => Z.of_nat (length li) + off
                            end)).

Definition li_tell : M Z := gets li_pos.

(** [li.read(n)]: the bytes from the current position, at most [n], fewer at
    the end of the input. *)
Definition li_read (li : pystr) (n : Z) : M pystr :=
  fun w =>
    let s := take (Z.to_nat n) (drop (Z.to_nat (li_pos w)) li) in
    (upd_pos (fun p => p + Z.of_nat (length s)) w, inr s).

(** [struct.unpack("<B", s)[0]] *)
Definition struct_unpack_B (s : pystr) : M Z :=
  match s with
  | [b] => ret (byte_to_Z b)
  | _ => raise (StructError "unpack requires a string argument of length 1")
  end.

(** [struct.unpack('<I', s)[0]] on a string of four bytes. *)
Definition struct_unpack_I (s : pystr) : M Z :=
  match s with
  | [b0; b1; b2; b3] =>
      ret (byte_to_Z b0 + 0x100 * byte_to_Z b1 + 0x10000 * byte_to_Z b2
           + 0x1000000 * byte_to_Z b3)
  | _ => raise (StructError "unpack requires a string argument of length 4")
  end.

(** ** Host primitives *)

Definition in_segment (ea : Z) (s : segment) : bool :=
  (seg_start s <=? ea) && (ea <? seg_end s).

Fixpoint rename_first (ea : Z) (name : string) (l : list segment) : list segment :=
  match l with
  | [] => []
  | s :: l' =>
      if in_segment ea s
      then Segment (seg_start s) (seg_end s) name :: l'
      else s :: rename_first ea name l'
  end.

(** [idc.AddSeg(startea, endea, base, use32, align, comb)]; the last four
    arguments are handed to the host as they are and take no part in any
    address computed by the script. *)
Definition AddSeg (startea endea : Z) : M unit :=
  modify (upd_segs (cons (Segment startea endea EmptyString))).

Definition RenameSeg (ea : Z) (name : string) : M unit :=
  modify (upd_segs (rename_first ea name)).

Definition PatchByte (ea : Z) (value : byte) : M unit :=
  modify (upd_bytes (insert ea value)).

Definition host (c : host_call) : M unit := modify (upd_log (cons c)).

Definition Warning (text : string) : M unit := modify (upd_warnings (cons text)).

Definition Byte_at (m : gmap Z byte) (ea : Z) : Z :=
  match m !! ea with
  | Some b => byte_to_Z b
  | None => 0xFF
  end.

(** [Word(ea)]: the 16-bit little-endian value at [ea]. *)
Definition Word (ea : Z) : M Z :=
  gets (fun w => Z.lor (Byte_at (bytes w) ea) (Z.shiftl (Byte_at (bytes w) (ea + 1)) 8)).

Fixpoint write_bytes (ea : Z) (s : pystr) (m : gmap Z byte) : gmap Z byte :=
  match s with
  | [] => m
  | b :: s' => write_bytes (ea + 1) s' (<[ea := b]> m)
  end.

(** The bytes of the input that exist in [pos, pos + n). *)
Definition available (li : pystr) (pos n : Z) : pystr :=
  if pos <? 0 then [] else take (Z.to_nat n) (drop (Z.to_nat pos) li).

(** [li.file2base(pos, ea1, ea2, patchable)] *)
Definition file2base (li : pystr) (pos ea1 ea2 : Z) (patchable : Z) : M Z :=
  fun w =>
    let s := available li pos (ea2 - ea1) in
    (upd_pos (fun p => if pos <? 0 then p else pos + Z.of_nat (length s))
       (upd_bytes (write_bytes ea1 s) (upd_loaded (cons (pos, ea1, ea2)) w)),
     inr (if Z.of_nat (length s) =? ea2 - ea1 then 1 else 0)).

(** ** The header structure (lines 12-23) *)

Record NES_HEADER : Type := {
  magic : pystr;
  nb_prg_page_16k : Z;
  nb_chr_page_8k : Z;
  rom_control_byte_0 : Z;
  rom_control_byte_1 : Z;
  nb_prg_page_8k : Z;
  reserved : pystr
}.

Definition ubyte_at (buf : pystr) (i : nat) : Z :=
  match buf !! i with
  | Some b => byte_to_Z b
  | None => 0
  end.

(** The fields of a buffer that is long enough. *)
Definition header_of (buf : pystr) : NES_HEADER :=
  {| magic := take 4 buf;
     nb_prg_page_16k := ubyte_at buf 4;
     nb_chr_page_8k := ubyte_at buf 5;
     rom_control_byte_0 := ubyte_at buf 6;
     rom_control_byte_1 := ubyte_at buf 7;
     nb_prg_page_8k := ubyte_at buf 8;
     reserved := take 7 (drop 9 buf) |}.

(** [NES_HEADER.from_buffer_copy(buf)] raises [ValueError] on a buffer
    shorter than the structure. *)
Definition from_buffer_copy (buf : pystr) : M NES_HEADER :=
  if Z.of_nat (length buf) <? LEN_NES_HEADER
  then raise (ValueError "Buffer size too small")
  else ret (header_of buf).

(** ** The functions of the script *)

(** lines 58-63 *)
Definition dwordAt (li : pystr) (off : Z) : M Z :=
  li_seek li off SEEK_SET ;;
  s <- li_read li 4 ;;
  if Z.of_nat (length s) <? 4 then ret 0 else struct_unpack_I s.

(** lines 65-67 *)
Definition zeromemory (ea size : Z) : M unit :=
  for_xrange 0 size (fun i => PatchByte (ea + i) Byte.x00).

(** lines 69-79; the answer is the integer 0 or the format name. *)
Definition accept_file (li : pystr) (n : Z) : M (Z + string) :=
  if 0 <? n then ret (inl 0)
  else
    li_seek li ROM_SIGNATURE_OFFSET SEEK_SET ;;
    s <- li_read li ROM_SIGNATURE_LENGTH ;;
    if decide (s = ROM_SIGNATURE) then ret (inr ROM_FORMAT_NAME)
    else ret (inl 0).

(** lines 81-86 *)
Definition load_prg_rom_bank (li : pystr) (nheader : NES_HEADER)
    (banknumber va : Z) : M unit :=
  let offset := LEN_NES_HEADER in
  let offset :=
    if negb (Z.land (rom_control_byte_0 nheader) 0x04 =? 0x00)
    then offset + TRAINER_SIZE else offset in
  let offset := offset + (banknumber - 1) * PRG_PAGE_SIZE in
  _ <- file2base li offset va (va + PRG_PAGE_SIZE) 0 ;;
  ret tt.

(** lines 88-93 *)
Definition load_chr_rom_bank (li : pystr) (nheader : NES_HEADER)
    (banknumber va : Z) : M unit :=
  let offset := LEN_NES_HEADER in
  let offset :=
    if negb (Z.land (rom_control_byte_0 nheader) 0x04 =? 0x00)
    then offset + TRAINER_SIZE else offset in
  let offset := offset + PRG_PAGE_SIZE * nb_prg_page_16k nheader
                + (banknumber - 1) * CHR_PAGE_SIZE in
  _ <- file2base li offset va (va + CHR_PAGE_SIZE) 0 ;;
  ret tt.

(** lines 184-194 *)
Definition describe (ea : Z) (isprev : bool) (text : string) : M unit :=
  host (Describe ea isprev text).

Definition read_ubyte (li : pystr) : M Z :=
  s <- li_read li 1 ;; struct_unpack_B s.

Definition describe_header_info (li : pystr) : M unit :=
  li_seek li 0 SEEK_SET ;;
  describe 0x00 true "-------------------------------" ;;
  describe 0x00 true "; ROM HEADER" ;;
  s <- li_read li 4 ;;
  describe 0x00 true ("; Signature : " +:+ fmt_s s) ;;
  v <- read_ubyte li ;;
  describe 0x00 true ("; Number of 16K PRG-ROM Pages : 0x" +:+ fmt_02X v) ;;
  v <- read_ubyte li ;;
  describe 0x00 true ("; Number of 8K CHR-ROM Pages : 0x" +:+ fmt_02X v) ;;
  v <- read_ubyte li ;;
  describe 0x00 true ("; Cartridge Type LSB : 0x" +:+ fmt_02X v) ;;
  v <- read_ubyte li ;;
  describe 0x00 true ("; Cartridge Type MSB : 0x" +:+ fmt_02X v) ;;
  v <- read_ubyte li ;;
  describe 0x00 true ("; Number of 8K RAM : 0x" +:+ fmt_02X v) ;;
  describe 0x00 true "-------------------------------".

(** lines 196-266: the script names the three vectors and the PPU, APU and
    joypad registers one after the other; each entry of the table is a call
    [MakeNameEx(ea, name, SN_NOCHECK | SN_NOWARN)] followed by [MakeWord(ea)]. *)
Definition naming_table : list (Z * string) :=
  [ (0xFFFA, "NMI_vector"); (0xFFFC, "RESET_vector"); (0xFFFE, "IRQ_vector");
    (0x2000, "PPU_Control_Register_1"); (0x2001, "PPU_Control_Register_2");
    (0x2002, "PPU_Status_Register"); (0x2003, "SPR-RAM_Address_Register");
    (0x2004, "SPR-RAM_Data_Register");
    (0x2005, "PPU_Background_Scrolling_Offset");
    (0x2006, "VRAM_Address_Register");
    (0x2007, "VRAM_Read/Write_Data_Register");
    (0x4000, "APU_Channel_1_(Rectangle)_Volume/Decay");
    (0x4001, "APU_Channel_1_(Rectangle)_Sweep");
    (0x4002, "APU_Channel_1_(Rectangle)_Frequency");
    (0x4003, "APU_Channel_1_(Rectangle)_Length");
    (0x4004, "APU_Channel_2_(Rectangle)_Volume/Decay");
    (0x4005, "APU_Channel_2_(Rectangle)_Sweep");
    (0x4006, "APU_Channel_2_(Rectangle)_Frequency");
    (0x4007, "APU_Channel_2_(Rectangle)_Length");
    (0x4008, "APU_Channel_3_(Triangle)_Linear_Counter");
    (0x4009, "APU_Channel_3_(Triangle)_N/A");
    (0x400A, "APU_Channel_3_(Triangle)_Frequency");
    (0x400B, "APU_Channel_3_(Triangle)_Length");
    (0x400C, "APU_Channel_4_(Noise)_Volume/Decay");
    (0x400D, "APU_Channel_4_(Noise)_N/A");
    (0x400E, "APU_Channel_4_(Noise)_Frequency");
    (0x400F, "APU_Channel_4_(Noise)_Length");
    (0x4010, "APU_Channel_5_(DMC)_Play_mode_and_DMA_frequency");
    (0x4011, "APU_Channel_5_(DMC)_Delta_counter_load_register");
    (0x4012, "APU_Channel_5_(DMC)_Address_load_register");
    (0x4013, "APU_Channel_5_(DMC)_Length_register");
    (0x4014, "SPR-RAM_DMA_Register");
    (0x4015, "DMC/IRQ/length_counter_status/channel_enable_register");
    (0x4016, "Joypad_#1_(RW)"); (0x4017, "Joypad_#2/APU_SOFTCLK_(RW)")
  ]%string.

Definition naming : M unit :=
  modify (upd_log (fun log =>
    fold_left (fun acc e =>
                 MakeWordCall (fst e)
                 :: MakeNameExCall (fst e) (snd e) ["SN_NOCHECK"; "SN_NOWARN"]%string
                 :: acc)
              naming_table log)).

(** The mapper number read off the two control bytes (line 144). *)
Definition mapper_version_of (nheader : NES_HEADER) : Z :=
  Z.lor (Z.shiftr (Z.land (rom_control_byte_0 nheader) 0xF0) 4)
        (Z.land (rom_control_byte_1 nheader) 0xF0).

(** [mapper_version == NAME] with [NAME] a global of the module. *)
Definition eq_global (mapper_version : Z) (name : string) : M bool :=
  v <- global name ;; ret (mapper_version =? v).

(** lines 145-152: the condition of the first branch, operand after operand. *)
Definition first_case_condition (mapper_version : Z) : M bool :=
  py_or (eq_global mapper_version "MAPPER_NONE")
  (py_or (eq_global mapper_version "MAPPER_MMC1")
  (py_or (eq_global mapper_version "MAPPER_UxROM")
  (py_or (eq_global mapper_version "MAPPER_CNROM")
  (py_or (eq_global mapper_version "MAPPER_MMC3")
  (py_or (eq_global mapper_version "MAPPER_MMC5")
  (py_or (eq_global mapper_version "MAPPER_CAMERIC")
         (eq_global mapper_version "MAPPER_GNROM"))))))).

(** lines 153-167: the body of the first branch. *)
Definition first_case_body (li : pystr) (nheader : NES_HEADER) : M unit :=
  let offset := LEN_NES_HEADER in
  let offset :=
    if negb (Z.land (rom_control_byte_0 nheader) 0x04 =? 0x00)
    then offset + TRAINER_SIZE else offset in
  let offset := offset in
  _ <- file2base li offset ROM_START (ROM_START + PRG_PAGE_SIZE) 0 ;;
  let offset := LEN_NES_HEADER in
  let offset :=
    if negb (Z.land (rom_control_byte_0 nheader) 0x04 =? 0x00)
    then offset + TRAINER_SIZE else offset in
  let offset := offset + (nb_prg_page_16k nheader - 1) * PRG_PAGE_SIZE in
  _ <- file2base li offset (ROM_START + PRG_PAGE_SIZE)
         (ROM_START + PRG_PAGE_SIZE + PRG_PAGE_SIZE) 0 ;;
  let offset := LEN_NES_HEADER in
  let offset :=
    if negb (Z.land (rom_control_byte_0 nheader) 0x04 =? 0x00)
    then offset + TRAINER_SIZE else offset in
  let offset := offset + PRG_PAGE_SIZE * nb_prg_page_16k nheader in
  _ <- file2base li offset RAM_START (RAM_START + CHR_PAGE_SIZE) 0 ;;
  ret tt.

(** lines 168-175: the [elif] and [else] branches. *)
Definition other_cases (mapper_version : Z) : M unit :=
  c <- eq_global mapper_version "MAPPER_MMC2" ;;
  if c then Warning "Second case mapper"
  else
    c <- py_or (eq_global mapper_version "MAPPER_AxROM")
         (py_or (eq_global mapper_version "MAPPER_COLOR_DREAMS")
                (eq_global mapper_version "MAPPER_BxROM")) ;;
    if c then Warning "Third case mapper"
    else Warning ("Mapper " +:+ fmt_d mapper_version +:+ " is not supported").

(** lines 144-175 *)
Definition mapper_dispatch (li : pystr) (nheader : NES_HEADER) : M unit :=
  let mapper_version := mapper_version_of nheader in
  c <- first_case_condition mapper_version ;;
  if c then first_case_body li nheader else other_cases mapper_version.

(** lines 107-140: the segments, in the order of the script. *)
Definition create_segments (nheader : NES_HEADER) : M unit :=
  (* RAM SEGMENT *)
  AddSeg RAM_START (RAM_START + RAM_SIZE) ;;
  RenameSeg RAM_START "RAM" ;;
  zeromemory RAM_START RAM_SIZE ;;
  (* IOREG SEGMENT *)
  AddSeg IOREG_START (IOREG_START + IOREG_SIZE) ;;
  RenameSeg IOREG_START "IOREG" ;;
  zeromemory IOREG_START IOREG_SIZE ;;
  (* SRAM SEGMENT *)
  (if negb (Z.land (rom_control_byte_0 nheader) 0x02 =? 0x00) then
     AddSeg SRAM_START (SRAM_START + SRAM_SIZE) ;;
     RenameSeg SRAM_START "SRAM" ;;
     zeromemory SRAM_START SRAM_SIZE
   else ret tt) ;;
  (* EXPROM SEGMENT *)
  AddSeg EXPROM_START (EXPROM_START + EXPROM_SIZE) ;;
  RenameSeg EXPROM_START "EXPROM" ;;
  zeromemory EXPROM_START EXPROM_SIZE ;;
  (* TRAINER SEGMENT *)
  (if negb (Z.land (rom_control_byte_0 nheader) 0x04 =? 0x00) then
     AddSeg TRAINER_START (TRAINER_START + TRAINER_SIZE) ;;
     RenameSeg TRAINER_START "TRAINER" ;;
     zeromemory TRAINER_START TRAINER_SIZE
   else ret tt) ;;
  (* ROM SEGMENT *)
  AddSeg ROM_START (ROM_START + ROM_SIZE) ;;
  RenameSeg ROM_START "ROM" ;;
  host (SetSegmentType ROM_START ["SEG_CODE"; "SEG_DATA"]%string) ;;
  zeromemory ROM_START ROM_SIZE.

(** lines 95-182 *)
Definition load_file (li : pystr) (neflags : Z) (format : string) : M Z :=
  if negb (String.eqb format ROM_FORMAT_NAME) then
    Warning ("Unknown format name: '" +:+ format +:+ "'") ;;
    ret 0
  else
    host (SetProcessorType "M6502" ["SETPROC_ALL"; "SETPROC_FATAL"]%string) ;;
    li_seek li 0 SEEK_END ;;
    size <- li_tell ;;
    li_seek li 0 SEEK_SET ;;
    buf <- li_read li LEN_NES_HEADER ;;
    nheader <- from_buffer_copy buf ;;
    create_segments nheader ;;
    describe_header_info li ;;
    mapper_dispatch li nheader ;;
    naming ;;
    ordinal <- Word 0xFFFC ;;
    ea <- Word 0xFFFC ;;
    host (AddEntry ordinal ea "start" 1) ;;
    v <- Word 0xFFFC ;;
    host (SetStartIP v) ;;
    v <- Word 0xFFFC ;;
    host (SetBeginEA v) ;;
    ret 1.

(** * Specification-side vocabulary

    The definitions below are not part of the script: they name the facts
    the properties are about. *)

Definition sram_present (h : NES_HEADER) : bool :=
  negb (Z.land (rom_control_byte_0 h) 0x02 =? 0x00).

Definition trainer_present (h : NES_HEADER) : bool :=
  negb (Z.land (rom_control_byte_0 h) 0x04 =? 0x00).

Definition RAM_region : segment := Segment 0x0000 0x2000 "RAM".
Definition IOREG_region : segment := Segment 0x2000 0x4020 "IOREG".
Definition EXPROM_region : segment := Segment 0x4020 0x6000 "EXPROM".
Definition SRAM_region : segment := Segment 0x6000 0x8000 "SRAM".
Definition TRAINER_region : segment := Segment 0x7000 0x7200 "TRAINER".
Definition ROM_region : segment := Segment 0x8000 0x10000 "ROM".

(** The regions a header asks for, in creation order. *)
Definition layout (h : NES_HEADER) : list segment :=
  [RAM_region; IOREG_region]
  ++ (if sram_present h then [SRAM_region] else [])
  ++ [EXPROM_region]
  ++ (if trainer_present h then [TRAINER_region] else [])
  ++ [ROM_region].

(** The map left by [zeromemory ea size]. *)
Definition zero_fill (ea size : Z) (m : gmap Z byte) : gmap Z byte :=
  write_bytes ea (replicate (Z.to_nat size) Byte.x00) m.

(** The database bytes once every region of [layout h] is zero-filled. *)
Definition zeroed (h : NES_HEADER) (m : gmap Z byte) : gmap Z byte :=
  zero_fill ROM_START ROM_SIZE
    ((if trainer_present h then zero_fill TRAINER_START TRAINER_SIZE else id)
       (zero_fill EXPROM_START EXPROM_SIZE
          ((if sram_present h then zero_fill SRAM_START SRAM_SIZE else id)
             (zero_fill IOREG_START IOREG_SIZE
                (zero_fill RAM_START RAM_SIZE m))))).

(** Two regions share an address. *)
Definition overlap (s t : segment) : Prop :=
  exists a : Z, seg_start s <= a < seg_end s /\ seg_start t <= a < seg_end t.

(** The header the script decodes from an input of at least 16 bytes. *)
Definition header (li : pystr) : NES_HEADER := header_of (take 16 li).

(** The mapper numbers on which the condition of lines 145-152 is decided
    before the name [MAPPER_CAMERIC] is evaluated. *)
Definition first_case (mapper_version : Z) : bool :=
  existsb (Z.eqb mapper_version)
    [MAPPER_NONE; MAPPER_MMC1; MAPPER_UxROM; MAPPER_CNROM; MAPPER_MMC3; MAPPER_MMC5].

(** The handling strategies of the specification and its classification
    table (specification, section 3); no function of the script computes it. *)
Inductive MapperStrategy : Type :=
  | Standard | MMC2Unsupported | AxROMFamilyUnsupported | Unknown.

Definition spec_strategy (id : Z) : MapperStrategy :=
  if existsb (Z.eqb id) [0; 1; 2; 3; 4; 5; 71; 66] then Standard
  else if id =? 9 then MMC2Unsupported
  else if existsb (Z.eqb id) [7; 11; 34] then AxROMFamilyUnsupported
  else Unknown.

(** The bank offset formulas of the specification (section 4.3). *)
Definition trainerAdjustment (trainerPresent : bool) : Z :=
  if trainerPresent then 512 else 0.

Definition prgBankOffset (trainerPresent : bool) (bankNumber1Indexed : Z) : Z :=
  16 + trainerAdjustment trainerPresent + (bankNumber1Indexed - 1) * 16384.

Definition chrBankOffset (trainerPresent : bool) (prgPages16k bankNumber1Indexed : Z) : Z :=
  16 + trainerAdjustment trainerPresent + prgPages16k * 16384
  + (bankNumber1Indexed - 1) * 8192.

(** The three copy requests of the first branch, newest first. *)
Definition first_case_requests (h : NES_HEADER) : list (Z * Z * Z) :=
  [ (chrBankOffset (trainer_present h) (nb_prg_page_16k h) 1, 0x0000, 0x2000);
    (prgBankOffset (trainer_present h) (nb_prg_page_16k h), 0xC000, 0x10000);
    (prgBankOffset (trainer_present h) 1, 0x8000, 0xC000) ].

(** The database bytes after the three copies. *)
Definition populated (li : pystr) (h : NES_HEADER) (m : gmap Z byte) : gmap Z byte :=
  write_bytes 0x0000
    (available li (chrBankOffset (trainer_present h) (nb_prg_page_16k h) 1) 0x2000)
    (write_bytes 0xC000
       (available li (prgBankOffset (trainer_present h) (nb_prg_page_16k h)) 0x4000)
       (write_bytes 0x8000
          (available li (prgBankOffset (trainer_present h) 1) 0x4000) m)).

(** The result of [load_file] on an input whose header can be read. *)
Definition outcome (h : NES_HEADER) : exn + Z :=
  if first_case (mapper_version_of h) then inr 1
  else inl (NameError "MAPPER_CAMERIC").

(** The text of the diagnostic of lines 168-175. *)
Definition other_cases_text (mapper_version : Z) : string :=
  if mapper_version =? 9 then "Second case mapper"
  else if existsb (Z.eqb mapper_version) [7; 11; 34] then "Third case mapper"
  else "Mapper " +:+ fmt_d mapper_version +:+ " is not supported".

(** ** Concrete images used to evaluate the script *)

(** A 16-byte header followed by [body]. *)
Definition ines_image (prg chr cb0 cb1 : byte) (body : pystr) : pystr :=
  ROM_SIGNATURE ++ [prg; chr; cb0; cb1; Byte.x00] ++ replicate 7 Byte.x00 ++ body.

Definition one_bank_body : pystr :=
  replicate (Z.to_nat 16384) Byte.xea ++ replicate (Z.to_nat 8192) Byte.x55.

(** Mapper 0, one PRG bank, one CHR bank. *)
Definition image_nrom : pystr := ines_image Byte.x01 Byte.x01 Byte.x00 Byte.x00 one_bank_body.
(** Mapper 9 (MMC2). *)
Definition image_mmc2 : pystr := ines_image Byte.x01 Byte.x01 Byte.x90 Byte.x00 one_bank_body.
(** Mapper 7 (AxROM). *)
Definition image_axrom : pystr := ines_image Byte.x01 Byte.x01 Byte.x70 Byte.x00 one_bank_body.
(** Mapper 255. *)
Definition image_255 : pystr := ines_image Byte.x01 Byte.x01 Byte.xf0 Byte.xf0 one_bank_body.
(** Mapper 66 (GNROM). *)
Definition image_gnrom : pystr := ines_image Byte.x01 Byte.x01 Byte.x20 Byte.x40 one_bank_body.
(** Mapper 0 with battery-backed RAM and a trainer (bits 1 and 2). *)
Definition image_sram_trainer : pystr :=
  ines_image Byte.x01 Byte.x01 Byte.x06 Byte.x00 (replicate 512 Byte.xaa ++ one_bank_body).
(** Mapper 0 with a trainer (bit 2) whose bytes are all 0xAA. *)
Definition image_trainer : pystr :=
  ines_image Byte.x01 Byte.x01 Byte.x04 Byte.x00 (replicate 512 Byte.xaa ++ one_bank_body).
(** Mapper 0, two PRG banks announced, cut after 16 + 8192 bytes. *)
Definition image_truncated : pystr :=
  ines_image Byte.x02 Byte.x01 Byte.x00 Byte.x00 (replicate (Z.to_nat 8192) Byte.xea).
(** A bare header: mapper 0, no flag. *)
Definition bare_header : pystr := ines_image Byte.x01 Byte.x01 Byte.x00 Byte.x00 [].
(** A bare header with bits 1 and 2 of the first control byte. *)
Definition bare_header_sram_trainer : pystr :=
  ines_image Byte.x01 Byte.x01 Byte.x06 Byte.x00 [].
(** A bare header of mapper 9. *)
Definition bare_header_mmc2 : pystr := ines_image Byte.x01 Byte.x01 Byte.x90 Byte.x00 [].

(** Two decoded headers with two PRG banks: without and with a trainer. *)
Definition header_two_banks : NES_HEADER :=
  {| magic := ROM_SIGNATURE; nb_prg_page_16k := 2; nb_chr_page_8k := 1;
     rom_control_byte_0 := 0x00; rom_control_byte_1 := 0x00;
     nb_prg_page_8k := 0; reserved := replicate 7 Byte.x00 |}.

Definition header_two_banks_trainer : NES_HEADER :=
  {| magic := ROM_SIGNATURE; nb_prg_page_16k := 2; nb_chr_page_8k := 1;
     rom_control_byte_0 := 0x04; rom_control_byte_1 := 0x00;
     nb_prg_page_8k := 0; reserved := replicate 7 Byte.x00 |}.

(** The comments [describe_header_info] attaches to address 0, in the order
    of the calls. *)
Definition header_comments (li : pystr) : list host_call :=
  [ Describe 0 true "-------------------------------";
    Describe 0 true "; ROM HEADER";
    Describe 0 true ("; Signature : " +:+ fmt_s (take 4 li));
    Describe 0 true ("; Number of 16K PRG-ROM Pages : 0x" +:+ fmt_02X (ubyte_at li 4));
    Describe 0 true ("; Number of 8K CHR-ROM Pages : 0x" +:+ fmt_02X (ubyte_at li 5));
    Describe 0 true ("; Cartridge Type LSB : 0x" +:+ fmt_02X (ubyte_at li 6));
    Describe 0 true ("; Cartridge Type MSB : 0x" +:+ fmt_02X (ubyte_at li 7));
    Describe 0 true ("; Number of 8K RAM : 0x" +:+ fmt_02X (ubyte_at li 8));
    Describe 0 true "-------------------------------" ].

(** The calls [naming] makes, in the order of the script. *)
Definition naming_calls : list host_call :=
  flat_map (fun e => [ MakeNameExCall (fst e) (snd e) ["SN_NOCHECK"; "SN_NOWARN"]%string;
                       MakeWordCall (fst e) ])
           naming_table.


(** * Properties *)

(** ** Running the monad *)

Lemma bind_ok {A B} (m : M A) (k : A -> M B) w w' a :
  m w = (w', inr a) -> bind m k w = k a w'.
Proof. intros E. unfold bind. now rewrite E. Qed.

Lemma bind_raise {A B} (m : M A) (k : A -> M B) w w' e :
  m w = (w', inl e) -> bind m k w = (w', inl e).
Proof. intros E. unfold bind. now rewrite E. Qed.

Lemma bind_modify {B} (f : world -> world) (k : unit -> M B) w :
  bind (modify f) k w = k tt (f w).
Proof. reflexivity. Qed.

(** ** Database bytes *)

Lemma write_bytes_lookup (s : pystr) : forall (ea : Z) (m : gmap Z byte) (a : Z),
  write_bytes ea s m !! a =
  if decide (ea <= a < ea + Z.of_nat (length s)) then s !! Z.to_nat (a - ea)
  else m !! a.
Proof.
  induction s as [|b s IH]; intros ea m a; simpl write_bytes.
  - case_decide; [simpl in *; lia | reflexivity].
  - rewrite IH. simpl length.
    destruct (decide (a = ea)) as [->|Hne].
    + rewrite decide_False by lia. rewrite decide_True by lia.
      rewrite lookup_insert_eq. now rewrite Z.sub_diag.
    + rewrite lookup_insert_ne by congruence.
      repeat case_decide; try lia; try reflexivity.
      replace (Z.to_nat (a - ea)) with (S (Z.to_nat (a - (ea + 1)))) by lia.
      reflexivity.
Qed.

Lemma zero_fill_lookup ea size m a :
  zero_fill ea size m !! a =
  if decide (ea <= a < ea + size) then Some Byte.x00 else m !! a.
Proof.
  unfold zero_fill. rewrite write_bytes_lookup, length_replicate.
  repeat case_decide; try lia; try reflexivity.
  apply lookup_replicate_2. lia.
Qed.

Lemma for_from_patch_zero (n : nat) : forall (ea i : Z) (w : world),
  for_from i n (fun i => PatchByte (ea + i) Byte.x00) w =
  (upd_bytes (write_bytes (ea + i) (replicate n Byte.x00)) w, inr tt).
Proof.
  induction n as [|n IH]; intros ea i w.
  - destruct w; reflexivity.
  - cbn [for_from]. unfold bind at 1. cbn [PatchByte modify].
    rewrite IH. cbn [replicate write_bytes].
    replace (ea + (i + 1)) with (ea + i + 1) by lia. reflexivity.
Qed.

Lemma zeromemory_run ea size w :
  zeromemory ea size w = (upd_bytes (zero_fill ea size) w, inr tt).
Proof.
  unfold zeromemory, for_xrange. rewrite for_from_patch_zero.
  unfold zero_fill. now rewrite Z.add_0_r, Z.sub_0_r.
Qed.

(** ** The segments (lines 107-140) *)

Lemma bind_AddSeg {B} a e (k : unit -> M B) w :
  bind (AddSeg a e) k w = k tt (upd_segs (cons (Segment a e EmptyString)) w).
Proof. reflexivity. Qed.

Lemma bind_RenameSeg {B} a name (k : unit -> M B) w :
  bind (RenameSeg a name) k w = k tt (upd_segs (rename_first a name) w).
Proof. reflexivity. Qed.

Lemma bind_host {B} c (k : unit -> M B) w :
  bind (host c) k w = k tt (upd_log (cons c) w).
Proof. reflexivity. Qed.

Lemma bind_zeromemory {B} a size (k : unit -> M B) w :
  bind (zeromemory a size) k w = k tt (upd_bytes (zero_fill a size) w).
Proof. apply bind_ok, zeromemory_run. Qed.

(** One segment of the script: create it, name it, clear it. *)
Lemma segment_block_k {B} a e size name (k : unit -> M B) w :
  in_segment a (Segment a e EmptyString) = true ->
  bind (AddSeg a e)
    (fun _ => bind (RenameSeg a name) (fun _ => bind (zeromemory a size) k)) w
  = k tt (upd_bytes (zero_fill a size) (upd_segs (cons (Segment a e name)) w)).
Proof.
  intros Hin. rewrite bind_AddSeg, bind_RenameSeg, bind_zeromemory.
  f_equal. destruct w as [p sg bs ld wn lg].
  unfold upd_bytes, upd_segs; cbn [li_pos segs bytes loaded warnings host_log].
  cbn [rename_first]. rewrite Hin. reflexivity.
Qed.

Lemma segment_block_run a e size name w :
  in_segment a (Segment a e EmptyString) = true ->
  bind (AddSeg a e) (fun _ => bind (RenameSeg a name) (fun _ => zeromemory a size)) w
  = (upd_bytes (zero_fill a size) (upd_segs (cons (Segment a e name)) w), inr tt).
Proof.
  intros Hin. rewrite bind_AddSeg, bind_RenameSeg, zeromemory_run.
  f_equal. destruct w as [p sg bs ld wn lg].
  unfold upd_bytes, upd_segs; cbn [li_pos segs bytes loaded warnings host_log].
  cbn [rename_first]. rewrite Hin. reflexivity.
Qed.

Lemma segment_block_if {B} (c : bool) a e size name (k : unit -> M B) w :
  in_segment a (Segment a e EmptyString) = true ->
  bind (if c
        then bind (AddSeg a e)
               (fun _ => bind (RenameSeg a name) (fun _ => zeromemory a size))
        else ret tt) k w
  = k tt (if c
          then upd_bytes (zero_fill a size) (upd_segs (cons (Segment a e name)) w)
          else w).
Proof.
  intros Hin. destruct c; [|reflexivity].
  apply bind_ok. now apply segment_block_run.
Qed.

Ltac norm_world :=
  cbv [upd_pos upd_segs upd_bytes upd_loaded upd_warnings upd_log
       li_pos segs bytes loaded warnings host_log id].

Lemma create_segments_run (h : NES_HEADER) (w : world) :
  create_segments h w =
  (upd_log (cons (SetSegmentType ROM_START ["SEG_CODE"; "SEG_DATA"]%string))
     (upd_bytes (zeroed h) (upd_segs (app (rev (layout h))) w)),
   inr tt).
Proof.
  unfold create_segments, zeroed, layout, sram_present, trainer_present.
  rewrite segment_block_k by reflexivity.
  rewrite segment_block_k by reflexivity.
  rewrite segment_block_if by reflexivity.
  rewrite segment_block_k by reflexivity.
  rewrite segment_block_if by reflexivity.
  rewrite bind_AddSeg, bind_RenameSeg, bind_host, zeromemory_run.
  f_equal.
  destruct (negb (Z.land (rom_control_byte_0 h) 0x02 =? 0x00));
    destruct (negb (Z.land (rom_control_byte_0 h) 0x04 =? 0x00));
    destruct w as [p sg bs ld wn lg]; norm_world; f_equal.
Qed.

(** ** Reading the input *)

Lemma bind_li_seek {B} li off wh (k : unit -> M B) w :
  bind (li_seek li off wh) k w =
  k tt (upd_pos (fun _ => match wh with
                          | SEEK_SET => off
                          | SEEK_END => Z.of_nat (length li) + off
                          end) w).
Proof. reflexivity. Qed.

Lemma bind_li_tell {B} (k : Z -> M B) w : bind li_tell k w = k (li_pos w) w.
Proof. reflexivity. Qed.

Lemma bind_li_read {B} (li : pystr) n (k : pystr -> M B) w :
  0 <= n -> 0 <= li_pos w -> li_pos w + n <= Z.of_nat (length li) ->
  bind (li_read li n) k w =
  k (take (Z.to_nat n) (drop (Z.to_nat (li_pos w)) li))
    (upd_pos (fun _ => li_pos w + n) w).
Proof.
  intros Hn Hp Hl. unfold bind, li_read.
  rewrite length_take, length_drop.
  replace (Z.of_nat (Z.to_nat n `min` (length li - Z.to_nat (li_pos w)))) with n by lia.
  destruct w; reflexivity.
Qed.

Lemma take_1_drop (li : pystr) (p : nat) :
  (p < length li)%nat ->
  exists b, li !! p = Some b /\ take 1 (drop p li) = [b].
Proof.
  intros Hp. destruct (lookup_lt_is_Some_2 li p Hp) as [b Hb].
  exists b. split; [exact Hb|].
  rewrite (drop_S _ _ _ Hb). reflexivity.
Qed.

Lemma bind_read_ubyte {B} (li : pystr) (k : Z -> M B) w :
  0 <= li_pos w -> li_pos w < Z.of_nat (length li) ->
  bind (read_ubyte li) k w =
  k (ubyte_at li (Z.to_nat (li_pos w))) (upd_pos (fun _ => li_pos w + 1) w).
Proof.
  intros Hp Hl. unfold read_ubyte.
  unfold bind at 1. rewrite bind_li_read by lia.
  destruct (take_1_drop li (Z.to_nat (li_pos w))) as (b & Hb & E); [lia|].
  change (Z.to_nat 1) with 1%nat. rewrite E.
  unfold ubyte_at. rewrite Hb. reflexivity.
Qed.

Lemma bind_Word {B} ea (k : Z -> M B) w :
  bind (Word ea) k w =
  k (Z.lor (Byte_at (bytes w) ea) (Z.shiftl (Byte_at (bytes w) (ea + 1)) 8)) w.
Proof. reflexivity. Qed.

Lemma bind_Warning {B} text (k : unit -> M B) w :
  bind (Warning text) k w = k tt (upd_warnings (cons text) w).
Proof. reflexivity. Qed.

Lemma describe_header_info_run (li : pystr) (w : world) :
  (16 <= length li)%nat ->
  exists p lg,
    describe_header_info li w = (upd_pos (fun _ => p) (upd_log (fun _ => lg) w), inr tt).
Proof.
  intros Hlen. destruct w as [p sg bs ld wn lg].
  unfold describe_header_info, describe.
  rewrite bind_li_seek; norm_world.
  rewrite !bind_host; norm_world.
  rewrite bind_li_read by (norm_world; lia); norm_world.
  rewrite !bind_host; norm_world.
  do 5 (rewrite bind_read_ubyte by (norm_world; lia); norm_world;
        rewrite bind_host; norm_world).
  eexists _, _. reflexivity.
Qed.

(** ** The mapper dispatch (lines 144-175) *)

Lemma eq_global_bound mv name v w :
  module_globals !! name = Some v -> eq_global mv name w = (w, inr (mv =? v)).
Proof. intros E. unfold eq_global, global. rewrite E. reflexivity. Qed.

Lemma eq_global_unbound mv name w :
  module_globals !! name = None -> eq_global mv name w = (w, inl (NameError name)).
Proof. intros E. unfold eq_global, global. rewrite E. reflexivity. Qed.

Lemma py_or_left_true (a b : M bool) w w' :
  a w = (w', inr true) -> py_or a b w = (w', inr true).
Proof. intros E. unfold py_or. now rewrite (bind_ok _ _ _ _ _ E). Qed.

Lemma py_or_left_false (a b : M bool) w w' :
  a w = (w', inr false) -> py_or a b w = b w'.
Proof. intros E. unfold py_or. now rewrite (bind_ok _ _ _ _ _ E). Qed.

Lemma py_or_eq_global mv name v (b : M bool) w :
  module_globals !! name = Some v ->
  py_or (eq_global mv name) b w = if mv =? v then (w, inr true) else b w.
Proof.
  intros E. destruct (mv =? v) eqn:Ev.
  - apply py_or_left_true. rewrite (eq_global_bound _ _ _ _ E). now rewrite Ev.
  - apply py_or_left_false. rewrite (eq_global_bound _ _ _ _ E). now rewrite Ev.
Qed.

Lemma MAPPER_CAMERIC_unbound : module_globals !! "MAPPER_CAMERIC"%string = None.
Proof. vm_compute. reflexivity. Qed.

Lemma first_case_condition_run (mv : Z) (w : world) :
  first_case_condition mv w =
  (w, if first_case mv then inr true else inl (NameError "MAPPER_CAMERIC")).
Proof.
  unfold first_case_condition, first_case. cbn [existsb].
  rewrite (py_or_eq_global mv "MAPPER_NONE" MAPPER_NONE) by (vm_compute; reflexivity).
  destruct (mv =? MAPPER_NONE); [reflexivity|].
  rewrite (py_or_eq_global mv "MAPPER_MMC1" MAPPER_MMC1) by (vm_compute; reflexivity).
  destruct (mv =? MAPPER_MMC1); [reflexivity|].
  rewrite (py_or_eq_global mv "MAPPER_UxROM" MAPPER_UxROM) by (vm_compute; reflexivity).
  destruct (mv =? MAPPER_UxROM); [reflexivity|].
  rewrite (py_or_eq_global mv "MAPPER_CNROM" MAPPER_CNROM) by (vm_compute; reflexivity).
  destruct (mv =? MAPPER_CNROM); [reflexivity|].
  rewrite (py_or_eq_global mv "MAPPER_MMC3" MAPPER_MMC3) by (vm_compute; reflexivity).
  destruct (mv =? MAPPER_MMC3); [reflexivity|].
  rewrite (py_or_eq_global mv "MAPPER_MMC5" MAPPER_MMC5) by (vm_compute; reflexivity).
  destruct (mv =? MAPPER_MMC5); [reflexivity|].
  unfold py_or.
  apply bind_raise, eq_global_unbound, MAPPER_CAMERIC_unbound.
Qed.

Lemma first_case_range (mv : Z) : first_case mv = true <-> 0 <= mv <= 5.
Proof.
  unfold first_case. cbn [existsb].
  unfold MAPPER_NONE, MAPPER_MMC1, MAPPER_UxROM, MAPPER_CNROM, MAPPER_MMC3, MAPPER_MMC5.
  rewrite !orb_true_iff, !Z.eqb_eq. lia.
Qed.

Lemma bind_file2base {B} li pos ea1 ea2 patchable (k : Z -> M B) w :
  bind (file2base li pos ea1 ea2 patchable) k w =
  k (if Z.of_nat (length (available li pos (ea2 - ea1))) =? ea2 - ea1 then 1 else 0)
    (upd_pos (fun p => if pos <? 0 then p
                       else pos + Z.of_nat (length (available li pos (ea2 - ea1))))
       (upd_bytes (write_bytes ea1 (available li pos (ea2 - ea1)))
          (upd_loaded (cons (pos, ea1, ea2)) w))).
Proof. reflexivity. Qed.

(** The offsets the script computes are those of the formulas. *)
Lemma inline_prg_offset (h : NES_HEADER) (b : Z) :
  (if negb (Z.land (rom_control_byte_0 h) 0x04 =? 0x00)
   then LEN_NES_HEADER + TRAINER_SIZE else LEN_NES_HEADER)
  + (b - 1) * PRG_PAGE_SIZE
  = prgBankOffset (trainer_present h) b.
Proof.
  unfold prgBankOffset, trainerAdjustment, trainer_present,
    LEN_NES_HEADER, TRAINER_SIZE, PRG_PAGE_SIZE.
  destruct (negb _); lia.
Qed.

Lemma inline_first_offset (h : NES_HEADER) :
  (if negb (Z.land (rom_control_byte_0 h) 0x04 =? 0x00)
   then LEN_NES_HEADER + TRAINER_SIZE else LEN_NES_HEADER)
  = prgBankOffset (trainer_present h) 1.
Proof.
  unfold prgBankOffset, trainerAdjustment, trainer_present,
    LEN_NES_HEADER, TRAINER_SIZE.
  destruct (negb _); lia.
Qed.

Lemma inline_chr_offset (h : NES_HEADER) (b : Z) :
  (if negb (Z.land (rom_control_byte_0 h) 0x04 =? 0x00)
   then LEN_NES_HEADER + TRAINER_SIZE else LEN_NES_HEADER)
  + PRG_PAGE_SIZE * nb_prg_page_16k h + (b - 1) * CHR_PAGE_SIZE
  = chrBankOffset (trainer_present h) (nb_prg_page_16k h) b.
Proof.
  unfold chrBankOffset, trainerAdjustment, trainer_present,
    LEN_NES_HEADER, TRAINER_SIZE, PRG_PAGE_SIZE, CHR_PAGE_SIZE.
  destruct (negb _); lia.
Qed.

Lemma inline_third_offset (h : NES_HEADER) :
  (if negb (Z.land (rom_control_byte_0 h) 0x04 =? 0x00)
   then LEN_NES_HEADER + TRAINER_SIZE else LEN_NES_HEADER)
  + PRG_PAGE_SIZE * nb_prg_page_16k h
  = chrBankOffset (trainer_present h) (nb_prg_page_16k h) 1.
Proof.
  unfold chrBankOffset, trainerAdjustment, trainer_present,
    LEN_NES_HEADER, TRAINER_SIZE, PRG_PAGE_SIZE.
  destruct (negb _); lia.
Qed.

Lemma first_case_body_run (li : pystr) (h : NES_HEADER) (w : world) :
  exists p,
    first_case_body li h w =
    (upd_pos (fun _ => p)
       (upd_bytes (populated li h) (upd_loaded (app (first_case_requests h)) w)),
     inr tt).
Proof.
  unfold first_case_body. cbv zeta.
  rewrite (inline_prg_offset h (nb_prg_page_16k h)), inline_third_offset,
    inline_first_offset.
  rewrite !bind_file2base.
  destruct w as [p sg bs ld wn lg]. norm_world.
  eexists. unfold ret, populated, first_case_requests.
  norm_world. reflexivity.
Qed.

Lemma other_cases_run (mv : Z) (w : world) :
  other_cases mv w = (upd_warnings (cons (other_cases_text mv)) w, inr tt).
Proof.
  unfold other_cases, other_cases_text. cbn [existsb].
  rewrite (bind_ok _ _ _ _ _ (eq_global_bound mv "MAPPER_MMC2" MAPPER_MMC2 w
                                ltac:(vm_compute; reflexivity))).
  change MAPPER_MMC2 with 9.
  destruct (mv =? 9); [reflexivity|].
  unfold bind at 1.
  rewrite (py_or_eq_global mv "MAPPER_AxROM" MAPPER_AxROM) by (vm_compute; reflexivity).
  change MAPPER_AxROM with 7.
  destruct (mv =? 7); [reflexivity|].
  rewrite (py_or_eq_global mv "MAPPER_COLOR_DREAMS" MAPPER_COLOR_DREAMS)
    by (vm_compute; reflexivity).
  change MAPPER_COLOR_DREAMS with 11.
  destruct (mv =? 11); [reflexivity|].
  rewrite (eq_global_bound mv "MAPPER_BxROM" MAPPER_BxROM) by (vm_compute; reflexivity).
  change MAPPER_BxROM with 34.
  destruct (mv =? 34); reflexivity.
Qed.

Lemma mapper_dispatch_run (li : pystr) (h : NES_HEADER) (w : world) :
  exists p,
    mapper_dispatch li h w =
    if first_case (mapper_version_of h)
    then (upd_pos (fun _ => p)
            (upd_bytes (populated li h)
               (upd_loaded (app (first_case_requests h)) w)), inr tt)
    else (w, inl (NameError "MAPPER_CAMERIC")).
Proof.
  unfold mapper_dispatch. cbv zeta.
  destruct (first_case_body_run li h w) as [p Hp]. exists p.
  pose proof (first_case_condition_run (mapper_version_of h) w) as Hc.
  destruct (first_case (mapper_version_of h)).
  - rewrite (bind_ok _ _ _ _ _ Hc). exact Hp.
  - apply (bind_raise _ _ _ _ _ Hc).
Qed.

(** ** The whole load (lines 95-182) *)

Lemma from_buffer_copy_ok (buf : pystr) :
  (16 <= length buf)%nat -> from_buffer_copy buf = ret (header_of buf).
Proof.
  intros H. unfold from_buffer_copy, LEN_NES_HEADER.
  destruct (Z.ltb_spec (Z.of_nat (length buf)) 16); [lia | reflexivity].
Qed.

Lemma from_buffer_copy_short (buf : pystr) :
  (length buf < 16)%nat ->
  from_buffer_copy buf = raise (ValueError "Buffer size too small").
Proof.
  intros H. unfold from_buffer_copy, LEN_NES_HEADER.
  destruct (Z.ltb_spec (Z.of_nat (length buf)) 16); [reflexivity | lia].
Qed.

Lemma load_file_run (li : pystr) (neflags : Z) (w : world) :
  (16 <= length li)%nat ->
  exists w',
    load_file li neflags ROM_FORMAT_NAME w = (w', outcome (header li))
    /\ segs w' = rev (layout (header li)) ++ segs w
    /\ warnings w' = warnings w
    /\ loaded w' =
       (if first_case (mapper_version_of (header li))
        then first_case_requests (header li) else []) ++ loaded w
    /\ bytes w' =
       (if first_case (mapper_version_of (header li))
        then populated li (header li) else id) (zeroed (header li) (bytes w)).
Proof.
  intros Hlen. destruct w as [p sg bs ld wn lg].
  unfold load_file. rewrite String.eqb_refl. cbn [negb].
  rewrite bind_host; norm_world.
  rewrite bind_li_seek; norm_world.
  rewrite bind_li_tell; norm_world.
  rewrite bind_li_seek; norm_world.
  rewrite bind_li_read by (norm_world; unfold LEN_NES_HEADER; lia); norm_world.
  change (Z.to_nat 0) with 0%nat. change (Z.to_nat LEN_NES_HEADER) with 16%nat.
  rewrite drop_0.
  rewrite from_buffer_copy_ok by (rewrite length_take; lia).
  change (header_of (take 16 li)) with (header li).
  set (h := header li).
  match goal with
  | |- context [bind (ret h) ?k ?w0] => change (bind (ret h) k w0) with (k h w0)
  end.
  cbv beta.
  match goal with
  | |- context [bind (create_segments h) ?k ?w0] =>
      rewrite (bind_ok _ k w0 _ _ (create_segments_run h w0))
  end.
  norm_world.
  match goal with
  | |- context [bind (describe_header_info li) ?k ?w0] =>
      destruct (describe_header_info_run li w0 Hlen) as (p1 & lg1 & E1);
      rewrite (bind_ok _ k w0 _ _ E1); clear E1
  end.
  norm_world.
  match goal with
  | |- context [bind (mapper_dispatch li h) ?k ?w0] =>
      destruct (mapper_dispatch_run li h w0) as (p2 & E2)
  end.
  unfold outcome.
  destruct (first_case (mapper_version_of h)).
  - rewrite (bind_ok _ _ _ _ _ E2); clear E2. norm_world.
    unfold naming. rewrite bind_modify. norm_world.
    rewrite bind_Word; norm_world.
    rewrite bind_Word; norm_world.
    rewrite bind_host; norm_world.
    rewrite bind_Word; norm_world.
    rewrite bind_host; norm_world.
    rewrite bind_Word; norm_world.
    rewrite bind_host; norm_world.
    eexists. split; [reflexivity|]. norm_world. auto.
  - rewrite (bind_raise _ _ _ _ _ E2); clear E2.
    eexists. split; [reflexivity|]. norm_world. auto.
Qed.

(** ** Contents of the database after a load *)

Lemma available_length (li : pystr) (pos n : Z) :
  Z.of_nat (length (available li pos n)) <= Z.max 0 n.
Proof.
  unfold available. destruct (pos <? 0); [simpl; lia|].
  rewrite length_take. lia.
Qed.

Lemma available_lookup (li : pystr) (pos n : Z) (i : nat) :
  0 <= pos -> (i < Z.to_nat n)%nat ->
  available li pos n !! i = li !! (Z.to_nat pos + i)%nat.
Proof.
  intros Hp Hi. unfold available.
  destruct (Z.ltb_spec pos 0); [lia|].
  rewrite lookup_take_lt by exact Hi. now rewrite lookup_drop.
Qed.

Ltac unfold_layout_constants :=
  unfold RAM_START, RAM_SIZE, IOREG_START, IOREG_SIZE, EXPROM_START,
    EXPROM_SIZE, SRAM_START, SRAM_SIZE, TRAINER_START, TRAINER_SIZE,
    ROM_START, ROM_SIZE in *.

(** Every address of every region of the layout holds zero once the
    segments are created. *)
Lemma zeroed_lookup_region (h : NES_HEADER) (m : gmap Z byte) (s : segment) (a : Z) :
  In s (layout h) -> seg_start s <= a < seg_end s ->
  zeroed h m !! a = Some Byte.x00.
Proof.
  unfold layout, zeroed. intros Hs Ha.
  destruct (sram_present h), (trainer_present h); cbn [app In] in Hs;
    repeat (destruct Hs as [<-|Hs]; [cbn [seg_start seg_end RAM_region
      IOREG_region EXPROM_region SRAM_region TRAINER_region ROM_region] in Ha|]);
    try contradiction;
    unfold id; rewrite ?zero_fill_lookup; unfold_layout_constants;
    repeat case_decide; try reflexivity; lia.
Qed.

Lemma zeroed_lookup_trainer (h : NES_HEADER) (m : gmap Z byte) (a : Z) :
  trainer_present h = true -> 0x7000 <= a < 0x7200 ->
  zeroed h m !! a = Some Byte.x00.
Proof.
  intros Ht Ha. apply (zeroed_lookup_region h m TRAINER_region a); [|exact Ha].
  unfold layout. rewrite Ht. rewrite !in_app_iff. cbn [In]. tauto.
Qed.

(** The three copies write into the ROM and RAM windows only. *)
Lemma populated_outside (li : pystr) (h : NES_HEADER) (m : gmap Z byte) (a : Z) :
  0x2000 <= a < 0x8000 -> populated li h m !! a = m !! a.
Proof.
  intros Ha. unfold populated.
  pose proof (available_length li
    (chrBankOffset (trainer_present h) (nb_prg_page_16k h) 1) 0x2000).
  pose proof (available_length li
    (prgBankOffset (trainer_present h) (nb_prg_page_16k h)) 0x4000).
  pose proof (available_length li (prgBankOffset (trainer_present h) 1) 0x4000).
  rewrite !write_bytes_lookup.
  repeat case_decide; try reflexivity; lia.
Qed.

Lemma populated_rom_low (li : pystr) (h : NES_HEADER) (m : gmap Z byte) (i : Z) :
  0 <= i < 0x4000 -> m !! (0x8000 + i) = Some Byte.x00 ->
  populated li h m !! (0x8000 + i) =
  Some (default Byte.x00
          (available li (prgBankOffset (trainer_present h) 1) 0x4000 !! Z.to_nat i)).
Proof.
  intros Hi Hm. unfold populated.
  pose proof (available_length li
    (chrBankOffset (trainer_present h) (nb_prg_page_16k h) 1) 0x2000).
  pose proof (available_length li
    (prgBankOffset (trainer_present h) (nb_prg_page_16k h)) 0x4000).
  set (s := available li (prgBankOffset (trainer_present h) 1) 0x4000) in *.
  rewrite !write_bytes_lookup.
  rewrite (decide_False (P := 0 <= 32768 + i < _)) by lia.
  rewrite (decide_False (P := 49152 <= 32768 + i < _)) by lia.
  replace (32768 + i - 32768) with i by lia.
  case_decide as Hd.
  - destruct (lookup_lt_is_Some_2 s (Z.to_nat i)) as [b Hb]; [lia|].
    now rewrite Hb.
  - rewrite Hm. rewrite lookup_ge_None_2 by lia. reflexivity.
Qed.

Lemma populated_rom_high (li : pystr) (h : NES_HEADER) (m : gmap Z byte) (i : Z) :
  0 <= i < 0x4000 -> m !! (0xC000 + i) = Some Byte.x00 ->
  populated li h m !! (0xC000 + i) =
  Some (default Byte.x00
          (available li (prgBankOffset (trainer_present h) (nb_prg_page_16k h))
             0x4000 !! Z.to_nat i)).
Proof.
  intros Hi Hm. unfold populated.
  pose proof (available_length li
    (chrBankOffset (trainer_present h) (nb_prg_page_16k h) 1) 0x2000).
  pose proof (available_length li (prgBankOffset (trainer_present h) 1) 0x4000).
  set (s := available li (prgBankOffset (trainer_present h) (nb_prg_page_16k h))
              0x4000) in *.
  rewrite !write_bytes_lookup.
  rewrite (decide_False (P := 0 <= 49152 + i < _)) by lia.
  replace (49152 + i - 49152) with i by lia.
  case_decide as Hd.
  - destruct (lookup_lt_is_Some_2 s (Z.to_nat i)) as [b Hb]; [lia|].
    now rewrite Hb.
  - rewrite (decide_False (P := 32768 <= 49152 + i < _)) by lia.
    rewrite Hm. rewrite lookup_ge_None_2 by lia. reflexivity.
Qed.

Lemma populated_ram (li : pystr) (h : NES_HEADER) (m : gmap Z byte) (i : Z) :
  0 <= i < 0x2000 -> m !! i = Some Byte.x00 ->
  populated li h m !! i =
  Some (default Byte.x00
          (available li (chrBankOffset (trainer_present h) (nb_prg_page_16k h) 1)
             0x2000 !! Z.to_nat i)).
Proof.
  intros Hi Hm. unfold populated.
  pose proof (available_length li
    (prgBankOffset (trainer_present h) (nb_prg_page_16k h)) 0x4000).
  pose proof (available_length li (prgBankOffset (trainer_present h) 1) 0x4000).
  set (s := available li (chrBankOffset (trainer_present h) (nb_prg_page_16k h) 1)
              0x2000) in *.
  rewrite !write_bytes_lookup.
  replace (i - 0) with i by lia.
  case_decide as Hd.
  - destruct (lookup_lt_is_Some_2 s (Z.to_nat i)) as [b Hb]; [lia|].
    now rewrite Hb.
  - rewrite (decide_False (P := 49152 <= i < _)) by lia.
    rewrite (decide_False (P := 32768 <= i < _)) by lia.
    rewrite Hm. rewrite lookup_ge_None_2 by lia. reflexivity.
Qed.

(** * The claims *)

Lemma byte_to_Z_range (b : byte) : 0 <= byte_to_Z b <= 255.
Proof.
  unfold byte_to_Z. pose proof (Byte.to_N_bounded b). lia.
Qed.

Lemma ubyte_at_range (buf : pystr) (i : nat) : 0 <= ubyte_at buf i <= 255.
Proof.
  unfold ubyte_at. destruct (buf !! i); [apply byte_to_Z_range | lia].
Qed.

(** The mapper number of a decoded header is one byte. *)
Lemma land_F0_range (c : Z) : 0 <= c -> 0 <= Z.land c 0xF0 < 2 ^ 8.
Proof.
  intros Hc. assert (H : 0 <= Z.land c 0xF0) by (apply Z.land_nonneg; lia).
  split; [exact H|].
  destruct (Z.eq_dec (Z.land c 0xF0) 0) as [->|Hne]; [lia|].
  apply Z.log2_lt_pow2; [lia|].
  pose proof (Z.log2_land c 0xF0 Hc ltac:(lia)) as Hl.
  change (Z.log2 0xF0) with 7 in Hl. lia.
Qed.

Lemma mapper_version_range (li : pystr) : 0 <= mapper_version_of (header li) <= 255.
Proof.
  unfold mapper_version_of, header, header_of.
  cbn [rom_control_byte_0 rom_control_byte_1].
  pose proof (ubyte_at_range (take 16 li) 6) as R0.
  pose proof (ubyte_at_range (take 16 li) 7) as R1.
  set (c0 := ubyte_at _ 6) in *. set (c1 := ubyte_at _ 7) in *.
  pose proof (land_F0_range c0 ltac:(lia)) as L0.
  pose proof (land_F0_range c1 ltac:(lia)) as H1.
  assert (H0 : 0 <= Z.shiftr (Z.land c0 0xF0) 4 < 2 ^ 8).
  { rewrite Z.shiftr_div_pow2 by lia.
    split; [apply Z.div_pos; lia|].
    apply Z.div_lt_upper_bound; lia. }
  set (x := Z.shiftr _ 4) in *. set (y := Z.land c1 _) in *.
  assert (0 <= Z.lor x y) by (apply Z.lor_nonneg; lia).
  assert (Z.lor x y < 2 ^ 8); [|lia].
  destruct (Z.eq_dec (Z.lor x y) 0) as [->|Hne]; [lia|].
  apply Z.log2_lt_pow2; [lia|].
  rewrite Z.log2_lor by lia.
  apply Z.max_lub_lt.
  - destruct (Z.eq_dec x 0) as [->|]; [simpl; lia|]. apply Z.log2_lt_pow2; lia.
  - destruct (Z.eq_dec y 0) as [->|]; [simpl; lia|]. apply Z.log2_lt_pow2; lia.
Qed.

(** C1 (defect of the script).  The specification classifies every mapper
    number, 9 as MMC2Unsupported, 7 as AxROMFamilyUnsupported, 255 as Unknown,
    with no failure mode.  In the script the condition of the first branch
    names [MAPPER_CAMERIC], which nothing binds: on the images of mapper 9, 7
    and 255 the load stops with [NameError] before any of the later branches
    is looked at; only mapper 0 (as 1 to 5) is dispatched. *)
Theorem mapper_dispatch_raises_NameError :
  (mapper_version_of (header image_mmc2) = 9
   /\ snd (load_file image_mmc2 0 ROM_FORMAT_NAME fresh)
      = inl (NameError "MAPPER_CAMERIC"))
  /\ (mapper_version_of (header image_axrom) = 7
      /\ snd (load_file image_axrom 0 ROM_FORMAT_NAME fresh)
         = inl (NameError "MAPPER_CAMERIC"))
  /\ (mapper_version_of (header image_255) = 255
      /\ snd (load_file image_255 0 ROM_FORMAT_NAME fresh)
         = inl (NameError "MAPPER_CAMERIC"))
  /\ (mapper_version_of (header image_nrom) = 0
      /\ snd (load_file image_nrom 0 ROM_FORMAT_NAME fresh) = inr 1).
Proof. vm_compute. repeat split. Qed.

(** ** Unsupported mappers *)

Lemma not_standard_not_first_case (mv : Z) :
  spec_strategy mv <> Standard -> first_case mv = false.
Proof.
  unfold spec_strategy, first_case. cbn [existsb].
  unfold MAPPER_NONE, MAPPER_MMC1, MAPPER_UxROM, MAPPER_CNROM, MAPPER_MMC3, MAPPER_MMC5.
  destruct (mv =? 0), (mv =? 1), (mv =? 2), (mv =? 3), (mv =? 4), (mv =? 5);
    cbn [orb]; congruence.
Qed.

Lemma regions_after_load (li : pystr) (neflags : Z) (w : world) :
  (16 <= length li)%nat ->
  regions (fst (load_file li neflags ROM_FORMAT_NAME w))
  = regions w ++ layout (header li).
Proof.
  intros Hlen. destruct (load_file_run li neflags w Hlen) as (w' & E & Hs & _).
  rewrite E. cbn [fst]. unfold regions. rewrite Hs.
  now rewrite rev_app_distr, rev_involutive.
Qed.

(** What a load does on an input whose mapper number the specification
    classifies as MMC2Unsupported, AxROMFamilyUnsupported or Unknown: every
    region of the layout is created and zero-filled and no copy is
    requested, and then the load stops with [NameError] at the name
    [MAPPER_CAMERIC]; no warning has been emitted. *)
Lemma unsupported_mapper_load_stops (li : pystr) (neflags : Z) (w : world) :
  (16 <= length li)%nat ->
  spec_strategy (mapper_version_of (header li)) <> Standard ->
  snd (load_file li neflags ROM_FORMAT_NAME w) = inl (NameError "MAPPER_CAMERIC")
  /\ warnings (fst (load_file li neflags ROM_FORMAT_NAME w)) = warnings w
  /\ regions (fst (load_file li neflags ROM_FORMAT_NAME w))
     = regions w ++ layout (header li)
  /\ (forall s a, In s (layout (header li)) -> seg_start s <= a < seg_end s ->
        bytes (fst (load_file li neflags ROM_FORMAT_NAME w)) !! a = Some Byte.x00)
  /\ loaded (fst (load_file li neflags ROM_FORMAT_NAME w)) = loaded w.
Proof.
  intros Hlen Hs.
  pose proof (regions_after_load li neflags w Hlen) as Hr.
  destruct (load_file_run li neflags w Hlen) as (w1 & E & _ & Hw & Hl & Hb).
  rewrite E in *. cbn [fst snd] in *. unfold outcome.
  rewrite (not_standard_not_first_case _ Hs) in *.
  split; [reflexivity|]. split; [exact Hw|]. split; [exact Hr|].
  split; [|exact Hl].
  intros s a Hin Ha. rewrite Hb. unfold id.
  now apply (zeroed_lookup_region (header li) _ s a).
Qed.

(** C2 (defect of the script).  The specification asks that a load of an
    image with an unsupported mapper completes and emits a diagnostic naming
    the mapper.  The load of the mapper 9 image does not complete: after the
    regions are created it stops with [NameError] at the name
    [MAPPER_CAMERIC], before the branches of lines 168-175 that hold the
    diagnostics, and no diagnostic has been emitted. *)
Lemma unsupported_mapper_load_raises :
  spec_strategy (mapper_version_of (header image_mmc2)) = MMC2Unsupported
  /\ (forall r : Z, snd (load_file image_mmc2 0 ROM_FORMAT_NAME fresh) <> inr r)
  /\ warnings (fst (load_file image_mmc2 0 ROM_FORMAT_NAME fresh)) = [].
Proof.
  split; [vm_compute; reflexivity|].
  split; [intros r; vm_compute; discriminate | vm_compute; reflexivity].
Qed.
(** ** Region layout *)

(** C3, as the script has it.  With bits 1 and 2 of the first control byte
    both set, the SRAM region and the TRAINER region are both created and
    share the address 0x7000. *)
Lemma sram_and_trainer_regions_overlap :
  In SRAM_region (regions (fst (load_file image_sram_trainer 0 ROM_FORMAT_NAME fresh)))
  /\ In TRAINER_region
       (regions (fst (load_file image_sram_trainer 0 ROM_FORMAT_NAME fresh)))
  /\ SRAM_region <> TRAINER_region
  /\ overlap SRAM_region TRAINER_region.
Proof.
  assert (E : regions (fst (load_file image_sram_trainer 0 ROM_FORMAT_NAME fresh))
              = [RAM_region; IOREG_region; SRAM_region; EXPROM_region;
                 TRAINER_region; ROM_region]) by (vm_compute; reflexivity).
  rewrite E. cbn [In].
  split; [tauto|]. split; [tauto|]. split; [discriminate|].
  exists 0x7000. cbn. lia.
Qed.

Lemma layout_overlap (h : NES_HEADER) (i j : nat) (s t : segment) :
  layout h !! i = Some s -> layout h !! j = Some t -> i <> j -> overlap s t ->
  sram_present h = true /\ trainer_present h = true
  /\ ((s = SRAM_region /\ t = TRAINER_region)
      \/ (s = TRAINER_region /\ t = SRAM_region)).
Proof.
  unfold layout. intros Hi Hj Hne (a & Hs & Ht).
  destruct (sram_present h), (trainer_present h); cbn [app] in Hi, Hj;
    destruct i as [|[|[|[|[|[|i]]]]]]; cbn in Hi; try discriminate Hi;
    destruct j as [|[|[|[|[|[|j]]]]]]; cbn in Hj; try discriminate Hj;
    try congruence;
    injection Hi as <-; injection Hj as <-;
    cbn in Hs, Ht; try lia; auto.
Qed.

(** C3 (amended).  Two distinct regions of a built address space intersect
    exactly when they are the SRAM and the TRAINER region, both present: if
    two distinct regions intersect, bits 1 and 2 of the first control byte
    are both set and the two regions are SRAM and TRAINER; and if both bits
    are set, the SRAM region and the TRAINER region are both created, at
    distinct places of the list, and intersect, the TRAINER region lying
    inside the SRAM region.  For every other combination of the flag bits no
    two regions intersect. *)
Theorem regions_overlap_only_sram_trainer
    (li : pystr) (neflags : Z) (w : world) :
  (16 <= length li)%nat -> segs w = [] ->
  let h := header li in
  let rs := regions (fst (load_file li neflags ROM_FORMAT_NAME w)) in
  (forall i j s t,
      rs !! i = Some s -> rs !! j = Some t -> i <> j -> overlap s t ->
      sram_present h = true /\ trainer_present h = true
      /\ ((s = SRAM_region /\ t = TRAINER_region)
          \/ (s = TRAINER_region /\ t = SRAM_region)))
  /\ (sram_present h && trainer_present h = false ->
      forall i j s t,
        rs !! i = Some s -> rs !! j = Some t -> i <> j -> ~ overlap s t)
  /\ (seg_start SRAM_region <= seg_start TRAINER_region
      /\ seg_end TRAINER_region <= seg_end SRAM_region)
  /\ (sram_present h = true -> trainer_present h = true ->
      exists i j,
        i <> j /\ rs !! i = Some SRAM_region /\ rs !! j = Some TRAINER_region
        /\ overlap SRAM_region TRAINER_region).
Proof.
  intros Hlen Hw h rs. subst rs.
  rewrite (regions_after_load li neflags w Hlen).
  unfold regions. rewrite Hw. cbn [rev app]. subst h.
  split; [|split; [|split]].
  - intros i j s t. apply layout_overlap.
  - intros Hb i j s t Hi Hj Hne Ho.
    destruct (layout_overlap (header li) i j s t Hi Hj Hne Ho) as (H1 & H2 & _).
    rewrite H1, H2 in Hb. discriminate.
  - cbn. lia.
  - intros H1 H2. unfold layout. rewrite H1, H2. cbn [app].
    exists 2%nat, 4%nat.
    split; [discriminate|]. split; [reflexivity|]. split; [reflexivity|].
    exists 0x7000. cbn. lia.
Qed.

Lemma regions_overlap_only_sram_trainer_witness :
  ((16 <= length bare_header)%nat /\ segs fresh = []
   /\ forall i j s t,
        regions (fst (load_file bare_header 0 ROM_FORMAT_NAME fresh)) !! i = Some s ->
        regions (fst (load_file bare_header 0 ROM_FORMAT_NAME fresh)) !! j = Some t ->
        i <> j -> ~ overlap s t)
  /\ ((16 <= length bare_header_sram_trainer)%nat
      /\ sram_present (header bare_header_sram_trainer) = true
      /\ trainer_present (header bare_header_sram_trainer) = true
      /\ exists i j,
           i <> j
           /\ regions (fst (load_file bare_header_sram_trainer 0 ROM_FORMAT_NAME fresh))
                !! i = Some SRAM_region
           /\ regions (fst (load_file bare_header_sram_trainer 0 ROM_FORMAT_NAME fresh))
                !! j = Some TRAINER_region
           /\ overlap SRAM_region TRAINER_region).
Proof.
  assert (H1 : (16 <= length bare_header)%nat) by (vm_compute; lia).
  assert (H2 : (16 <= length bare_header_sram_trainer)%nat) by (vm_compute; lia).
  assert (H3 : sram_present (header bare_header_sram_trainer) = true)
    by (vm_compute; reflexivity).
  assert (H4 : trainer_present (header bare_header_sram_trainer) = true)
    by (vm_compute; reflexivity).
  pose proof (regions_overlap_only_sram_trainer bare_header 0 fresh H1 eq_refl) as P1.
  pose proof (regions_overlap_only_sram_trainer bare_header_sram_trainer 0 fresh
                H2 eq_refl) as P2.
  cbv zeta in P1, P2.
  destruct P1 as (_ & P1 & _). destruct P2 as (_ & _ & _ & P2).
  split.
  - split; [exact H1|]. split; [reflexivity|].
    apply P1. vm_compute. reflexivity.
  - split; [exact H2|]. split; [exact H3|]. split; [exact H4|].
    exact (P2 H3 H4).
Defined.

(** ** The trainer *)

(** C4, as the script has it.  The image has a trainer of 512 bytes 0xAA at
    file offset 16; after the load the first byte of the TRAINER region
    is 0. *)
Lemma trainer_bytes_not_copied :
  trainer_present (header image_trainer) = true
  /\ image_trainer !! 16%nat = Some Byte.xaa
  /\ bytes (fst (load_file image_trainer 0 ROM_FORMAT_NAME fresh)) !! 0x7000
     = Some Byte.x00.
Proof. vm_compute. repeat split. Qed.

(** C4 (amended).  For every input with bit 2 of the first control byte set
    the TRAINER region [0x7000, 0x7200) is created and zero-filled, and no
    copy is requested into it: after a load every byte of the region is 0,
    whatever the source bytes [16, 528) are. *)
Theorem trainer_region_stays_zero (li : pystr) (neflags : Z) (w : world) :
  (16 <= length li)%nat ->
  Z.land (rom_control_byte_0 (header li)) 0x04 <> 0 ->
  let w' := fst (load_file li neflags ROM_FORMAT_NAME w) in
  In TRAINER_region (regions w')
  /\ (forall a, 0x7000 <= a < 0x7200 -> bytes w' !! a = Some Byte.x00)
  /\ (forall pos ea1 ea2,
        In (pos, ea1, ea2) (loaded w') ->
        In (pos, ea1, ea2) (loaded w) \/ ea2 <= 0x7000 \/ 0x7200 <= ea1).
Proof.
  intros Hlen Hbit w'.
  assert (Ht : trainer_present (header li) = true).
  { unfold trainer_present. now destruct (Z.eqb_spec (Z.land (rom_control_byte_0 (header li)) 4) 0). }
  pose proof (regions_after_load li neflags w Hlen) as Hr.
  destruct (load_file_run li neflags w Hlen) as (w1 & E & _ & _ & Hl & Hb).
  subst w'. rewrite E in *. cbn [fst] in *.
  split; [|split].
  - rewrite Hr. apply in_or_app. right.
    unfold layout. rewrite Ht. rewrite !in_app_iff. cbn [In]. tauto.
  - intros a Ha. rewrite Hb.
    destruct (first_case _); unfold id.
    + rewrite populated_outside by lia. now apply zeroed_lookup_trainer.
    + now apply zeroed_lookup_trainer.
  - intros pos ea1 ea2 Hin. rewrite Hl in Hin.
    apply in_app_or in Hin. destruct Hin as [Hin|Hin]; [|now left].
    right. destruct (first_case _); [|contradiction].
    unfold first_case_requests in Hin. cbn [In] in Hin.
    destruct Hin as [Hin|[Hin|[Hin|[]]]]; injection Hin as <- <- <-; lia.
Qed.

Lemma trainer_region_stays_zero_witness :
  (16 <= length image_trainer)%nat
  /\ Z.land (rom_control_byte_0 (header image_trainer)) 0x04 <> 0
  /\ forall a, 0x7000 <= a < 0x7200 ->
       bytes (fst (load_file image_trainer 0 ROM_FORMAT_NAME fresh)) !! a
       = Some Byte.x00.
Proof.
  assert (H1 : (16 <= length image_trainer)%nat)
    by (apply Nat.leb_le; vm_compute; reflexivity).
  assert (H2 : Z.land (rom_control_byte_0 (header image_trainer)) 0x04 <> 0)
    by (vm_compute; discriminate).
  split; [exact H1|]. split; [exact H2|].
  exact (proj1 (proj2 (trainer_region_stays_zero image_trainer 0 fresh H1 H2))).
Defined.

(** ** The copies of the first branch *)

(** What a load leaves when the first branch is taken (mapper numbers 0 to
    5): the three requests, no diagnostic, and in each target window what
    [file2base], as modelled above, loads from the computed offset over a
    zero-filled region. *)
Lemma first_case_load (li : pystr) (neflags : Z) (w : world) :
  (16 <= length li)%nat ->
  0 <= mapper_version_of (header li) <= 5 ->
  let h := header li in
  let t := trainer_present h in
  let r := load_file li neflags ROM_FORMAT_NAME w in
  snd r = inr 1
  /\ warnings (fst r) = warnings w
  /\ loaded (fst r) = first_case_requests h ++ loaded w
  /\ (forall i, 0 <= i < 0x4000 ->
        bytes (fst r) !! (0x8000 + i) =
        Some (default Byte.x00
                (available li (prgBankOffset t 1) 0x4000 !! Z.to_nat i)))
  /\ (forall i, 0 <= i < 0x4000 ->
        bytes (fst r) !! (0xC000 + i) =
        Some (default Byte.x00
                (available li (prgBankOffset t (nb_prg_page_16k h)) 0x4000
                   !! Z.to_nat i)))
  /\ (forall i, 0 <= i < 0x2000 ->
        bytes (fst r) !! i =
        Some (default Byte.x00
                (available li (chrBankOffset t (nb_prg_page_16k h) 1) 0x2000
                   !! Z.to_nat i))).
Proof.
  intros Hlen Hmv h t r.
  apply first_case_range in Hmv.
  destruct (load_file_run li neflags w Hlen) as (w1 & E & _ & Hw & Hl & Hb).
  subst r t h. rewrite E. cbn [fst snd]. unfold outcome.
  rewrite Hmv in *.
  split; [reflexivity|]. split; [exact Hw|]. split; [exact Hl|].
  rewrite Hb.
  split; [|split]; intros i Hi.
  - apply populated_rom_low; [exact Hi|].
    apply (zeroed_lookup_region _ _ ROM_region); [|cbn; lia].
    unfold layout. rewrite !in_app_iff. cbn [In]. tauto.
  - apply populated_rom_high; [exact Hi|].
    apply (zeroed_lookup_region _ _ ROM_region); [|cbn; lia].
    unfold layout. rewrite !in_app_iff. cbn [In]. tauto.
  - apply populated_ram; [exact Hi|].
    apply (zeroed_lookup_region _ _ RAM_region); [|cbn; lia].
    unfold layout. cbn [app In]. tauto.
Qed.

(** With one PRG bank the two halves of the ROM region are equal. *)
Lemma single_bank_mirrored (li : pystr) (neflags : Z) (w : world) (i : Z) :
  (16 <= length li)%nat ->
  0 <= mapper_version_of (header li) <= 5 ->
  nb_prg_page_16k (header li) = 1 ->
  0 <= i < 0x4000 ->
  bytes (fst (load_file li neflags ROM_FORMAT_NAME w)) !! (0x8000 + i)
  = bytes (fst (load_file li neflags ROM_FORMAT_NAME w)) !! (0xC000 + i).
Proof.
  intros Hlen Hmv Hn Hi.
  destruct (first_case_load li neflags w Hlen Hmv) as (_ & _ & _ & Hlo & Hhi & _).
  rewrite (Hlo i Hi), (Hhi i Hi), Hn. reflexivity.
Qed.

(** C5, as the script has it.  The header announces two PRG banks and the
    source stops after 16 + 8192 bytes, so each of the three copies asks for
    bytes the source does not have.  The three copies are requested all the
    same, the script emits no diagnostic and the load answers 1. *)
Lemma truncated_source_loaded_without_diagnostic :
  Z.of_nat (length image_truncated) < 16 + 16384
  /\ loaded (fst (load_file image_truncated 0 ROM_FORMAT_NAME fresh))
     = [(32784, 0, 8192); (16400, 49152, 65536); (16, 32768, 49152)]
  /\ snd (load_file image_truncated 0 ROM_FORMAT_NAME fresh) = inr 1
  /\ warnings (fst (load_file image_truncated 0 ROM_FORMAT_NAME fresh)) = [].
Proof. vm_compute. repeat split. Qed.

(** C5 (amended).  When the first branch is taken (mapper numbers 0 to 5)
    the script makes no check against the length of the source: whatever
    that length is, the three copies are requested at the computed offsets,
    no diagnostic is emitted and the load answers 1.  A copy whose range the
    source contains is carried out whatever happens to the others: when the
    source contains the first PRG bank, the lower half of the ROM region
    holds its bytes.  What the host leaves in a region whose copy runs past
    the end of the source is not part of the statement. *)
Theorem truncated_source_not_checked (li : pystr) (neflags : Z) (w : world) :
  (16 <= length li)%nat ->
  0 <= mapper_version_of (header li) <= 5 ->
  let h := header li in
  let r := load_file li neflags ROM_FORMAT_NAME w in
  snd r = inr 1
  /\ warnings (fst r) = warnings w
  /\ loaded (fst r) = first_case_requests h ++ loaded w
  /\ (16 + (if trainer_present h then 512 else 0) + 0x4000 <= Z.of_nat (length li) ->
      forall i, 0 <= i < 0x4000 ->
        bytes (fst r) !! (0x8000 + i)
        = li !! Z.to_nat (16 + (if trainer_present h then 512 else 0) + i)).
Proof.
  intros Hlen Hmv h r.
  destruct (first_case_load li neflags w Hlen Hmv) as (H1 & H2 & H3 & Hlo & _).
  subst r h. split; [exact H1|]. split; [exact H2|]. split; [exact H3|].
  intros Hfull i Hi. rewrite (Hlo i Hi).
  assert (Hoff : prgBankOffset (trainer_present (header li)) 1
                 = 16 + (if trainer_present (header li) then 512 else 0))
    by (unfold prgBankOffset, trainerAdjustment;
        destruct (trainer_present (header li)); lia).
  rewrite Hoff in *.
  assert (Ht : 0 <= (if trainer_present (header li) then 512 else 0))
    by (destruct (trainer_present (header li)); lia).
  rewrite available_lookup by lia.
  replace (Z.to_nat (16 + (if trainer_present (header li) then 512 else 0))
           + Z.to_nat i)%nat
    with (Z.to_nat (16 + (if trainer_present (header li) then 512 else 0) + i))
    by lia.
  destruct (lookup_lt_is_Some_2 li
              (Z.to_nat (16 + (if trainer_present (header li) then 512 else 0) + i)))
    as [x Hx]; [lia|].
  now rewrite Hx.
Qed.

Lemma truncated_source_not_checked_witness :
  ((16 <= length image_truncated)%nat
   /\ 0 <= mapper_version_of (header image_truncated) <= 5
   /\ snd (load_file image_truncated 0 ROM_FORMAT_NAME fresh) = inr 1)
  /\ ((16 <= length image_nrom)%nat
      /\ 0 <= mapper_version_of (header image_nrom) <= 5
      /\ 16 + 0 + 0x4000 <= Z.of_nat (length image_nrom)
      /\ forall i, 0 <= i < 0x4000 ->
           bytes (fst (load_file image_nrom 0 ROM_FORMAT_NAME fresh)) !! (0x8000 + i)
           = image_nrom !! Z.to_nat (16 + 0 + i)).
Proof.
  assert (H1 : (16 <= length image_truncated)%nat)
    by (apply Nat.leb_le; vm_compute; reflexivity).
  assert (H2 : 0 <= mapper_version_of (header image_truncated) <= 5)
    by (vm_compute; split; discriminate).
  assert (H3 : (16 <= length image_nrom)%nat)
    by (apply Nat.leb_le; vm_compute; reflexivity).
  assert (H4 : 0 <= mapper_version_of (header image_nrom) <= 5)
    by (vm_compute; split; discriminate).
  assert (H5 : 16 + 0 + 0x4000 <= Z.of_nat (length image_nrom))
    by (vm_compute; discriminate).
  assert (Ht : trainer_present (header image_nrom) = false)
    by (vm_compute; reflexivity).
  split.
  - split; [exact H1|]. split; [exact H2|].
    exact (proj1 (truncated_source_not_checked image_truncated 0 fresh H1 H2)).
  - split; [exact H3|]. split; [exact H4|]. split; [exact H5|].
    pose proof (truncated_source_not_checked image_nrom 0 fresh H3 H4) as P.
    cbv zeta in P. rewrite Ht in P. destruct P as (_ & _ & _ & P).
    exact (P H5).
Defined.

(** C6 (defect of the script).  The specification counts mapper 66 as
    Standard and asks for the three copies.  On the mapper 66 image the load
    stops with [NameError] at the name [MAPPER_CAMERIC], evaluated before
    [MAPPER_GNROM]: no copy is requested and the ROM region stays zero
    although the source has the byte 0xEA at offset 16. *)
Theorem gnrom_image_not_populated :
  mapper_version_of (header image_gnrom) = 66
  /\ spec_strategy 66 = Standard
  /\ snd (load_file image_gnrom 0 ROM_FORMAT_NAME fresh)
     = inl (NameError "MAPPER_CAMERIC")
  /\ loaded (fst (load_file image_gnrom 0 ROM_FORMAT_NAME fresh)) = []
  /\ image_gnrom !! 16%nat = Some Byte.xea
  /\ bytes (fst (load_file image_gnrom 0 ROM_FORMAT_NAME fresh)) !! 0x8000
     = Some Byte.x00.
Proof. vm_compute. repeat split. Qed.

(** ** Bank offsets *)

Lemma load_prg_rom_bank_request (li : pystr) (h : NES_HEADER) (b va : Z) (w : world) :
  loaded (fst (load_prg_rom_bank li h b va w))
  = (prgBankOffset (trainer_present h) b, va, va + PRG_PAGE_SIZE) :: loaded w.
Proof.
  unfold load_prg_rom_bank. cbv zeta.
  rewrite inline_prg_offset, bind_file2base.
  destruct w; reflexivity.
Qed.

Lemma load_chr_rom_bank_request (li : pystr) (h : NES_HEADER) (b va : Z) (w : world) :
  loaded (fst (load_chr_rom_bank li h b va w))
  = (chrBankOffset (trainer_present h) (nb_prg_page_16k h) b, va, va + CHR_PAGE_SIZE)
    :: loaded w.
Proof.
  unfold load_chr_rom_bank. cbv zeta.
  rewrite inline_chr_offset, bind_file2base.
  destruct w; reflexivity.
Qed.

(** C7.  The file offset requested by [load_prg_rom_bank] for bank [b] is
    16 + (512 if the trainer bit is set, else 0) + (b - 1) * 16384, and the
    one requested by [load_chr_rom_bank] is 16 + (512 or 0) + prgPages16k *
    16384 + (b - 1) * 8192, for every header and every bank number.  With two
    PRG banks and no trainer the PRG offsets of banks 1 and 2 are 16 and
    16400; with a trainer both are 512 higher. *)
Theorem bank_offset_formulas (li : pystr) (h : NES_HEADER) (b va : Z) (w : world) :
  loaded (fst (load_prg_rom_bank li h b va w))
  = (16 + (if negb (Z.land (rom_control_byte_0 h) 0x04 =? 0) then 512 else 0)
     + (b - 1) * 16384, va, va + 16384) :: loaded w
  /\ loaded (fst (load_chr_rom_bank li h b va w))
     = (16 + (if negb (Z.land (rom_control_byte_0 h) 0x04 =? 0) then 512 else 0)
        + nb_prg_page_16k h * 16384 + (b - 1) * 8192, va, va + 8192) :: loaded w
  /\ loaded (fst (load_prg_rom_bank li header_two_banks 1 va w))
     = (16, va, va + 16384) :: loaded w
  /\ loaded (fst (load_prg_rom_bank li header_two_banks 2 va w))
     = (16400, va, va + 16384) :: loaded w
  /\ loaded (fst (load_prg_rom_bank li header_two_banks_trainer 1 va w))
     = (16 + 512, va, va + 16384) :: loaded w
  /\ loaded (fst (load_prg_rom_bank li header_two_banks_trainer 2 va w))
     = (16400 + 512, va, va + 16384) :: loaded w.
Proof.
  rewrite !load_prg_rom_bank_request, load_chr_rom_bank_request.
  repeat split.
Qed.

(** C10.  The first branch of [load_file] does what three calls of the bank
    helpers do: [load_prg_rom_bank] for bank 1 at the start of the ROM
    region, [load_prg_rom_bank] for bank [nb_prg_page_16k] at its second
    half, [load_chr_rom_bank] for bank 1 at the start of the RAM region.  In
    particular each offset computed inline is the offset the helper requests
    for the corresponding bank number. *)
Theorem first_case_body_as_bank_helpers (li : pystr) (h : NES_HEADER) (w : world) :
  first_case_body li h w
  = (load_prg_rom_bank li h 1 ROM_START ;;
     load_prg_rom_bank li h (nb_prg_page_16k h) (ROM_START + PRG_PAGE_SIZE) ;;
     load_chr_rom_bank li h 1 RAM_START) w
  /\ loaded (fst (load_prg_rom_bank li h 1 ROM_START w))
     = ((if negb (Z.land (rom_control_byte_0 h) 0x04 =? 0x00)
         then LEN_NES_HEADER + TRAINER_SIZE else LEN_NES_HEADER),
        ROM_START, ROM_START + PRG_PAGE_SIZE) :: loaded w
  /\ loaded (fst (load_prg_rom_bank li h (nb_prg_page_16k h)
                    (ROM_START + PRG_PAGE_SIZE) w))
     = ((if negb (Z.land (rom_control_byte_0 h) 0x04 =? 0x00)
         then LEN_NES_HEADER + TRAINER_SIZE else LEN_NES_HEADER)
        + (nb_prg_page_16k h - 1) * PRG_PAGE_SIZE,
        ROM_START + PRG_PAGE_SIZE, ROM_START + PRG_PAGE_SIZE + PRG_PAGE_SIZE)
       :: loaded w
  /\ loaded (fst (load_chr_rom_bank li h 1 RAM_START w))
     = ((if negb (Z.land (rom_control_byte_0 h) 0x04 =? 0x00)
         then LEN_NES_HEADER + TRAINER_SIZE else LEN_NES_HEADER)
        + PRG_PAGE_SIZE * nb_prg_page_16k h,
        RAM_START, RAM_START + CHR_PAGE_SIZE) :: loaded w.
Proof.
  split; [|split; [|split]].
  - unfold first_case_body, load_prg_rom_bank, load_chr_rom_bank. cbv zeta.
    rewrite (inline_prg_offset h (nb_prg_page_16k h)), (inline_prg_offset h 1),
      (inline_chr_offset h 1), inline_third_offset, inline_first_offset.
    destruct w; reflexivity.
  - rewrite load_prg_rom_bank_request, inline_first_offset. reflexivity.
  - rewrite load_prg_rom_bank_request, inline_prg_offset. reflexivity.
  - rewrite load_chr_rom_bank_request, inline_third_offset. reflexivity.
Qed.

(** ** Conditional regions *)

Lemma sram_region_in_layout (h : NES_HEADER) :
  In SRAM_region (layout h) <-> sram_present h = true.
Proof.
  unfold layout.
  destruct (sram_present h), (trainer_present h); cbn [app In];
    split; intros H; try reflexivity; try discriminate H; try tauto;
    repeat (destruct H as [H|H]; [discriminate H|]); contradiction.
Qed.

Lemma trainer_region_in_layout (h : NES_HEADER) :
  In TRAINER_region (layout h) <-> trainer_present h = true.
Proof.
  unfold layout.
  destruct (sram_present h), (trainer_present h); cbn [app In];
    split; intros H; try reflexivity; try discriminate H; try tauto;
    repeat (destruct H as [H|H]; [discriminate H|]); contradiction.
Qed.

Lemma layout_names (h : NES_HEADER) (s : segment) :
  In s (layout h) ->
  (seg_name s = "SRAM"%string -> s = SRAM_region)
  /\ (seg_name s = "TRAINER"%string -> s = TRAINER_region).
Proof.
  unfold layout.
  destruct (sram_present h), (trainer_present h); cbn [app In]; intros H;
    repeat (destruct H as [<-|H]; [split; intros E; try reflexivity; discriminate E|]);
    contradiction.
Qed.

Lemma flag_bit (c mask : Z) : negb (Z.land c mask =? 0) = true <-> Z.land c mask <> 0.
Proof. destruct (Z.eqb_spec (Z.land c mask) 0); cbn; split; congruence. Qed.

(** C8.  For every decoded header the built address space contains the SRAM
    region exactly when bit 1 of the first control byte is set, and the
    TRAINER region exactly when bit 2 is set; a region with one of these two
    names is the region of the layout table. *)
Theorem sram_trainer_presence (li : pystr) (neflags : Z) (w : world) :
  (16 <= length li)%nat -> segs w = [] ->
  let h := header li in
  let rs := regions (fst (load_file li neflags ROM_FORMAT_NAME w)) in
  (In SRAM_region rs <-> Z.land (rom_control_byte_0 h) 0x02 <> 0)
  /\ (In TRAINER_region rs <-> Z.land (rom_control_byte_0 h) 0x04 <> 0)
  /\ ((exists s, In s rs /\ seg_name s = "SRAM"%string)
      <-> Z.land (rom_control_byte_0 h) 0x02 <> 0)
  /\ ((exists s, In s rs /\ seg_name s = "TRAINER"%string)
      <-> Z.land (rom_control_byte_0 h) 0x04 <> 0).
Proof.
  intros Hlen Hw h rs. subst rs h.
  rewrite (regions_after_load li neflags w Hlen).
  unfold regions. rewrite Hw. cbn [rev app].
  pose proof (flag_bit (rom_control_byte_0 (header li)) 2) as B1.
  pose proof (flag_bit (rom_control_byte_0 (header li)) 4) as B2.
  fold (sram_present (header li)) in B1.
  fold (trainer_present (header li)) in B2.
  pose proof (sram_region_in_layout (header li)) as S1.
  pose proof (trainer_region_in_layout (header li)) as T1.
  split; [tauto|]. split; [tauto|].
  split; split.
  - intros (s & Hin & Hn). apply B1, S1.
    now rewrite <- (proj1 (layout_names _ s Hin) Hn).
  - intros H. exists SRAM_region. split; [tauto | reflexivity].
  - intros (s & Hin & Hn). apply B2, T1.
    now rewrite <- (proj2 (layout_names _ s Hin) Hn).
  - intros H. exists TRAINER_region. split; [tauto | reflexivity].
Qed.

Lemma sram_trainer_presence_witness :
  (16 <= length bare_header_sram_trainer)%nat /\ segs fresh = []
  /\ In SRAM_region
       (regions (fst (load_file bare_header_sram_trainer 0 ROM_FORMAT_NAME fresh)))
  /\ ~ In SRAM_region
       (regions (fst (load_file bare_header 0 ROM_FORMAT_NAME fresh))).
Proof.
  assert (H1 : (16 <= length bare_header_sram_trainer)%nat) by (vm_compute; lia).
  assert (H2 : (16 <= length bare_header)%nat) by (vm_compute; lia).
  pose proof (sram_trainer_presence bare_header_sram_trainer 0 fresh H1 eq_refl) as P1.
  pose proof (sram_trainer_presence bare_header 0 fresh H2 eq_refl) as P2.
  cbv zeta in P1, P2.
  destruct P1 as ((_ & P1) & _). destruct P2 as ((P2 & _) & _).
  split; [exact H1|]. split; [reflexivity|]. split.
  - apply P1. vm_compute. discriminate.
  - intros Hin. apply (P2 Hin). vm_compute. reflexivity.
Defined.

(** ** Header decoding *)

Lemma accept_file_run (li : pystr) (w : world) :
  accept_file li 0 w =
  (upd_pos (fun _ => Z.of_nat (length (take 4 li))) w,
   inr (if decide (take 4 li = ROM_SIGNATURE) then inr ROM_FORMAT_NAME else inl 0)).
Proof.
  unfold accept_file. change (0 <? 0) with false. cbv iota.
  rewrite bind_li_seek. unfold bind, li_read.
  destruct w as [p sg bs ld wn lg]. norm_world.
  change (Z.to_nat ROM_SIGNATURE_OFFSET) with 0%nat.
  change (Z.to_nat ROM_SIGNATURE_LENGTH) with 4%nat.
  rewrite drop_0.
  destruct (decide (take 4 li = ROM_SIGNATURE)); reflexivity.
Qed.

Lemma load_file_short (li : pystr) (neflags : Z) (w : world) :
  (length li < 16)%nat ->
  load_file li neflags ROM_FORMAT_NAME w =
  (upd_pos (fun _ => Z.of_nat (length (take 16 li)))
     (upd_log (cons (SetProcessorType "M6502" ["SETPROC_ALL"; "SETPROC_FATAL"]%string)) w),
   inl (ValueError "Buffer size too small")).
Proof.
  intros Hlen. destruct w as [p sg bs ld wn lg].
  unfold load_file. rewrite String.eqb_refl. cbn [negb].
  rewrite bind_host; norm_world.
  rewrite bind_li_seek; norm_world.
  rewrite bind_li_tell; norm_world.
  rewrite bind_li_seek; norm_world.
  unfold bind at 1. unfold li_read at 1. norm_world.
  change (Z.to_nat 0) with 0%nat. change (Z.to_nat LEN_NES_HEADER) with 16%nat.
  rewrite drop_0.
  rewrite from_buffer_copy_short by (rewrite length_take; lia).
  reflexivity.
Qed.

(** C9.  An image is turned down exactly when it has fewer than 16 bytes or
    its first four bytes are not the signature: [accept_file] answers 0 when
    the signature is absent, and on an input it accepted that is shorter than
    the header [load_file] stops with [ValueError] while decoding the header.
    At that point the only thing the host has been asked is to select the
    processor: no region is created, no byte written, no copy requested, no
    warning emitted, nothing named and no entry point registered.  Every
    source whose first four bytes are the signature is accepted by
    [accept_file]. *)
Theorem header_decoder_rejects_iff (li : pystr) (neflags : Z) (w w2 : world) :
  let accepted := accept_file li 0 w in
  let r := load_file li neflags ROM_FORMAT_NAME w2 in
  ((snd accepted = inr (inl 0) \/ exists msg, snd r = inl (ValueError msg))
   <-> ((length li < 16)%nat \/ take 4 li <> ROM_SIGNATURE))
  /\ (take 4 li = ROM_SIGNATURE <-> snd accepted = inr (inr ROM_FORMAT_NAME))
  /\ (segs (fst accepted) = segs w /\ bytes (fst accepted) = bytes w
      /\ loaded (fst accepted) = loaded w /\ warnings (fst accepted) = warnings w)
  /\ ((exists msg, snd r = inl (ValueError msg)) ->
      segs (fst r) = segs w2 /\ bytes (fst r) = bytes w2
      /\ loaded (fst r) = loaded w2 /\ warnings (fst r) = warnings w2
      /\ host_log (fst r)
         = SetProcessorType "M6502" ["SETPROC_ALL"; "SETPROC_FATAL"]%string
           :: host_log w2).
Proof.
  intros accepted r. subst accepted r.
  rewrite accept_file_run. cbn [fst snd].
  destruct (Nat.lt_ge_cases (length li) 16) as [Hs|Hl].
  - rewrite (load_file_short li neflags w2 Hs). cbn [fst snd].
    split; [|split; [|split]].
    + split; [intros _; now left | intros _; right; eauto].
    + destruct (decide (take 4 li = ROM_SIGNATURE)); split; congruence.
    + destruct w; repeat split.
    + intros _. destruct w2; repeat split.
  - destruct (load_file_run li neflags w2 Hl) as (w' & E & _).
    rewrite E. cbn [fst snd].
    assert (Hno : forall msg, outcome (header li) <> inl (ValueError msg)).
    { intros msg. unfold outcome. destruct (first_case _); discriminate. }
    split; [|split; [|split]].
    + destruct (decide (take 4 li = ROM_SIGNATURE)) as [Hm|Hm]; split.
      * intros [H|[msg H]]; [discriminate H | now apply Hno in H].
      * intros [H|H]; [lia | contradiction].
      * intros _. now right.
      * intros _. now left.
    + destruct (decide (take 4 li = ROM_SIGNATURE)); split; congruence.
    + destruct w; repeat split.
    + intros [msg H]. now apply Hno in H.
Qed.

Lemma header_decoder_rejects_iff_witness :
  take 4 bare_header = ROM_SIGNATURE
  /\ snd (accept_file bare_header 0 fresh) = inr (inr ROM_FORMAT_NAME)
  /\ (exists msg,
        snd (load_file (take 15 bare_header) 0 ROM_FORMAT_NAME fresh)
        = inl (ValueError msg))
  /\ segs (fst (load_file (take 15 bare_header) 0 ROM_FORMAT_NAME fresh)) = segs fresh.
Proof.
  pose proof (header_decoder_rejects_iff bare_header 0 fresh fresh) as P1.
  pose proof (header_decoder_rejects_iff (take 15 bare_header) 0 fresh fresh) as P2.
  cbv zeta in P1, P2.
  destruct P1 as (_ & (P1 & _) & _).
  destruct P2 as ((_ & P2) & _ & _ & P3).
  assert (Hm : take 4 bare_header = ROM_SIGNATURE) by reflexivity.
  split; [exact Hm|]. split; [exact (P1 Hm)|].
  assert (Hr : exists msg,
             snd (load_file (take 15 bare_header) 0 ROM_FORMAT_NAME fresh)
             = inl (ValueError msg)).
  { assert (Hs : (length (take 15 bare_header) < 16)%nat)
      by (apply Nat.ltb_lt; vm_compute; reflexivity).
    destruct (P2 (or_introl Hs)) as [H|H]; [|exact H].
    exfalso. revert H. vm_compute. discriminate. }
  split; [exact Hr|]. exact (proj1 (P3 Hr)).
Defined.

(** * Further properties of the script *)

(** ** [zeromemory] (lines 65-67) *)

(** For a size that [xrange] accepts on every platform (it fits a 32-bit C
    long), [zeromemory ea size] stores 0 at every address of
    [ea, ea + size), leaves every other byte as it was, touches nothing else
    and does not fail; for [size <= 0] it writes nothing. *)
Theorem zeromemory_clears_range (ea size : Z) (w : world) :
  - 2 ^ 31 <= size < 2 ^ 31 ->
  snd (zeromemory ea size w) = inr tt
  /\ (forall a : Z,
        bytes (fst (zeromemory ea size w)) !! a
        = if decide (ea <= a < ea + size) then Some Byte.x00 else bytes w !! a)
  /\ segs (fst (zeromemory ea size w)) = segs w
  /\ loaded (fst (zeromemory ea size w)) = loaded w
  /\ warnings (fst (zeromemory ea size w)) = warnings w
  /\ host_log (fst (zeromemory ea size w)) = host_log w
  /\ li_pos (fst (zeromemory ea size w)) = li_pos w.
Proof.
  intros _. rewrite zeromemory_run. cbn [fst snd].
  split; [reflexivity|]. split; [|destruct w; repeat split].
  intros a. destruct w as [p sg bs ld wn lg]. norm_world.
  apply zero_fill_lookup.
Qed.

Lemma zeromemory_clears_range_witness :
  - 2 ^ 31 <= TRAINER_SIZE < 2 ^ 31
  /\ forall a : Z,
       bytes (fst (zeromemory TRAINER_START TRAINER_SIZE fresh)) !! a
       = if decide (TRAINER_START <= a < TRAINER_START + TRAINER_SIZE)
         then Some Byte.x00 else bytes fresh !! a.
Proof.
  assert (H : - 2 ^ 31 <= TRAINER_SIZE < 2 ^ 31) by (unfold TRAINER_SIZE; lia).
  split; [exact H|].
  exact (proj1 (proj2 (zeromemory_clears_range TRAINER_START TRAINER_SIZE fresh H))).
Defined.

(** ** [dwordAt] (lines 58-63) *)

Lemma take_4_drop (li : pystr) (p : nat) :
  (p + 4 <= length li)%nat ->
  exists b0 b1 b2 b3,
    take 4 (drop p li) = [b0; b1; b2; b3]
    /\ li !! p = Some b0 /\ li !! (p + 1)%nat = Some b1
    /\ li !! (p + 2)%nat = Some b2 /\ li !! (p + 3)%nat = Some b3.
Proof.
  intros Hp.
  assert (Hl : (4 <= length (drop p li))%nat) by (rewrite length_drop; lia).
  assert (Hk : forall k, drop p li !! k = li !! (p + k)%nat)
    by (intros k; apply lookup_drop).
  destruct (drop p li) as [|b0 [|b1 [|b2 [|b3 l]]]]; cbn [length] in Hl; try lia.
  exists b0, b1, b2, b3. split; [reflexivity|].
  rewrite <- (Hk 1%nat), <- (Hk 2%nat), <- (Hk 3%nat).
  rewrite <- (Nat.add_0_r p) at 1. rewrite <- (Hk 0%nat).
  repeat split.
Qed.

(** [dwordAt li off] never fails.  When fewer than four bytes exist from
    [off] on it answers 0; otherwise it answers the little-endian value of
    the four bytes at [off], a number below 2^32 whose k-th base-256 digit is
    the byte at [off + k].  The database is left as it was. *)
Theorem dwordAt_little_endian (li : pystr) (off : Z) (w : world) :
  0 <= off ->
  (Z.of_nat (length li) < off + 4 -> snd (dwordAt li off w) = inr 0)
  /\ (off + 4 <= Z.of_nat (length li) ->
      exists v,
        snd (dwordAt li off w) = inr v
        /\ 0 <= v < 2 ^ 32
        /\ forall k, 0 <= k < 4 ->
             (v / 256 ^ k) mod 256 = ubyte_at li (Z.to_nat (off + k)))
  /\ segs (fst (dwordAt li off w)) = segs w
  /\ bytes (fst (dwordAt li off w)) = bytes w
  /\ loaded (fst (dwordAt li off w)) = loaded w
  /\ warnings (fst (dwordAt li off w)) = warnings w.
Proof.
  intros Hoff. unfold dwordAt. rewrite bind_li_seek.
  unfold bind, li_read. destruct w as [p sg bs ld wn lg]. norm_world.
  set (s := take (Z.to_nat 4) (drop (Z.to_nat off) li)).
  assert (Hdb : forall r : world * (exn + Z),
            r = (if Z.of_nat (length s) <? 4 then ret 0 else struct_unpack_I s)
                  (World (off + Z.of_nat (length s)) sg bs ld wn lg) ->
            segs (fst r) = sg /\ bytes (fst r) = bs /\ loaded (fst r) = ld
            /\ warnings (fst r) = wn).
  { intros r ->. destruct (Z.of_nat (length s) <? 4); [repeat split|].
    unfold struct_unpack_I.
    destruct s as [|c0 [|c1 [|c2 [|c3 [|c4 s]]]]]; repeat split. }
  split; [|split; [|exact (Hdb _ eq_refl)]].
  - intros Hshort.
    assert (Hs : Z.of_nat (length s) < 4).
    { subst s. rewrite length_take, length_drop. lia. }
    destruct (Z.ltb_spec (Z.of_nat (length s)) 4); [reflexivity | lia].
  - intros Hlong.
    destruct (take_4_drop li (Z.to_nat off)) as (b0 & b1 & b2 & b3 & E & H0 & H1 & H2 & H3);
      [lia|].
    change (Z.to_nat 4) with 4%nat in s. subst s. rewrite E.
    cbn [length]. change (Z.of_nat 4 <? 4) with false. cbv iota.
    unfold struct_unpack_I, ret. cbn [snd].
    pose proof (byte_to_Z_range b0). pose proof (byte_to_Z_range b1).
    pose proof (byte_to_Z_range b2). pose proof (byte_to_Z_range b3).
    eexists. split; [reflexivity|]. split; [lia|].
    intros k Hk. unfold ubyte_at.
    assert (Hc : k = 0 \/ k = 1 \/ k = 2 \/ k = 3) by lia.
    destruct Hc as [-> | [-> | [-> | ->]]].
    + replace (Z.to_nat (off + 0)) with (Z.to_nat off) by lia. rewrite H0.
      change (256 ^ 0) with 1. Z.to_euclidean_division_equations. lia.
    + replace (Z.to_nat (off + 1)) with (Z.to_nat off + 1)%nat by lia. rewrite H1.
      change (256 ^ 1) with 256. Z.to_euclidean_division_equations. lia.
    + replace (Z.to_nat (off + 2)) with (Z.to_nat off + 2)%nat by lia. rewrite H2.
      change (256 ^ 2) with 65536. Z.to_euclidean_division_equations. lia.
    + replace (Z.to_nat (off + 3)) with (Z.to_nat off + 3)%nat by lia. rewrite H3.
      change (256 ^ 3) with 16777216. Z.to_euclidean_division_equations. lia.
Qed.

Lemma dwordAt_little_endian_witness :
  0 <= 0
  /\ exists v,
       snd (dwordAt bare_header 0 fresh) = inr v
       /\ 0 <= v < 2 ^ 32
       /\ forall k, 0 <= k < 4 ->
            (v / 256 ^ k) mod 256 = ubyte_at bare_header (Z.to_nat (0 + k)).
Proof.
  split; [lia|].
  apply (proj1 (proj2 (dwordAt_little_endian bare_header 0 fresh ltac:(lia)))).
  vm_compute. discriminate.
Defined.

(** ** [accept_file] (lines 69-79) *)

(** [accept_file li n] never fails and writes nothing.  It offers the format
    name exactly when [n <= 0] and the first four bytes are the signature;
    in every other case it answers 0.  For [n > 0] the input is not even
    read: the read position stays where it was. *)
Theorem accept_file_answer (li : pystr) (n : Z) (w : world) :
  (snd (accept_file li n w) = inr (inr ROM_FORMAT_NAME)
   <-> n <= 0 /\ take 4 li = ROM_SIGNATURE)
  /\ (snd (accept_file li n w) = inr (inl 0)
      <-> 0 < n \/ take 4 li <> ROM_SIGNATURE)
  /\ (0 < n -> fst (accept_file li n w) = w)
  /\ (n <= 0 ->
      li_pos (fst (accept_file li n w)) = Z.min 4 (Z.of_nat (length li)))
  /\ segs (fst (accept_file li n w)) = segs w
  /\ bytes (fst (accept_file li n w)) = bytes w
  /\ loaded (fst (accept_file li n w)) = loaded w
  /\ warnings (fst (accept_file li n w)) = warnings w
  /\ host_log (fst (accept_file li n w)) = host_log w.
Proof.
  unfold accept_file. destruct (Z.ltb_spec 0 n) as [Hn|Hn].
  - unfold ret. cbn [fst snd].
    split; [split; [discriminate | lia]|].
    split; [split; [now left | reflexivity]|].
    repeat split. lia.
  - rewrite bind_li_seek. unfold bind, li_read.
    destruct w as [p sg bs ld wn lg]. norm_world.
    change (Z.to_nat ROM_SIGNATURE_OFFSET) with 0%nat.
    change (Z.to_nat ROM_SIGNATURE_LENGTH) with 4%nat.
    rewrite drop_0.
    destruct (decide (take 4 li = ROM_SIGNATURE)) as [Hm|Hm];
      unfold ret; cbn [fst snd li_pos segs bytes loaded warnings host_log].
    + split; [split; [intros _; split; [lia | exact Hm] | reflexivity]|].
      split; [split; [discriminate | intros [H|H]; [lia | contradiction]]|].
      split; [lia|]. split; [|repeat split].
      intros _. unfold ROM_SIGNATURE_OFFSET. rewrite length_take. lia.
    + split; [split; [discriminate | intros [_ H]; contradiction]|].
      split; [split; [now right | reflexivity]|].
      split; [lia|]. split; [|repeat split].
      intros _. unfold ROM_SIGNATURE_OFFSET. rewrite length_take. lia.
Qed.

Lemma accept_file_answer_witness :
  0 < 1
  /\ fst (accept_file bare_header 1 fresh) = fresh
  /\ snd (accept_file bare_header 1 fresh) = inr (inl 0).
Proof.
  pose proof (accept_file_answer bare_header 1 fresh) as P.
  destruct P as (_ & (_ & P2) & P3 & _).
  assert (H : 0 < 1) by lia.
  split; [exact H|]. split; [exact (P3 H) | exact (P2 (or_introl H))].
Defined.

(** ** [describe_header_info] (lines 184-194) *)

Lemma describe_header_info_comments (li : pystr) (w : world) :
  (9 <= length li)%nat ->
  describe_header_info li w
  = (upd_pos (fun _ => 9) (upd_log (app (rev (header_comments li))) w), inr tt).
Proof.
  intros Hlen. destruct w as [p sg bs ld wn lg].
  unfold describe_header_info, describe.
  rewrite bind_li_seek; norm_world.
  rewrite !bind_host; norm_world.
  rewrite bind_li_read by (norm_world; lia); norm_world.
  rewrite !bind_host; norm_world.
  do 5 (rewrite bind_read_ubyte by (norm_world; lia); norm_world;
        rewrite bind_host; norm_world).
  reflexivity.
Qed.

(** [describe_header_info] needs the first nine bytes of the input.  With
    nine bytes or more it attaches nine comments to address 0 (the
    signature and the five one-byte fields printed as two hexadecimal
    digits), leaves the read position at 9 and changes nothing else.  On a
    shorter input it stops with the error of [struct.unpack] on an empty
    read, and the regions, bytes, copies and warnings are as before. *)
Theorem describe_header_info_needs_nine_bytes (li : pystr) (w : world) :
  ((9 <= length li)%nat ->
   snd (describe_header_info li w) = inr tt
   /\ host_log (fst (describe_header_info li w))
      = rev (header_comments li) ++ host_log w
   /\ li_pos (fst (describe_header_info li w)) = 9)
  /\ ((length li < 9)%nat ->
      snd (describe_header_info li w)
      = inl (StructError "unpack requires a string argument of length 1"))
  /\ segs (fst (describe_header_info li w)) = segs w
  /\ bytes (fst (describe_header_info li w)) = bytes w
  /\ loaded (fst (describe_header_info li w)) = loaded w
  /\ warnings (fst (describe_header_info li w)) = warnings w.
Proof.
  destruct (Nat.lt_ge_cases (length li) 9) as [Hs|Hl].
  - split; [intros H; lia|].
    destruct w as [p sg bs ld wn lg].
    destruct li as [|a0 [|a1 [|a2 [|a3 [|a4 [|a5 [|a6 [|a7 [|a8 li]]]]]]]]];
      try (cbn [length] in Hs; lia);
      (split; [intros _; lazy; reflexivity | lazy; repeat split]).
  - rewrite (describe_header_info_comments li w Hl). cbn [fst snd].
    split; [intros _; destruct w; repeat split|].
    split; [intros H; lia|]. destruct w; repeat split.
Qed.

Lemma describe_header_info_needs_nine_bytes_witness :
  (9 <= length bare_header)%nat /\ (length (take 8 bare_header) < 9)%nat
  /\ snd (describe_header_info bare_header fresh) = inr tt
  /\ snd (describe_header_info (take 8 bare_header) fresh)
     = inl (StructError "unpack requires a string argument of length 1").
Proof.
  assert (H1 : (9 <= length bare_header)%nat) by (vm_compute; lia).
  assert (H2 : (length (take 8 bare_header) < 9)%nat) by (vm_compute; lia).
  pose proof (describe_header_info_needs_nine_bytes bare_header fresh) as P1.
  pose proof (describe_header_info_needs_nine_bytes (take 8 bare_header) fresh) as P2.
  destruct P1 as (P1 & _). destruct P2 as (_ & P2 & _).
  split; [exact H1|]. split; [exact H2|].
  split; [exact (proj1 (P1 H1)) | exact (P2 H2)].
Defined.

(** ** The mapper number (line 144) *)

Lemma forallb_below (P : Z -> bool) (n : nat) :
  forallb P (map Z.of_nat (seq 0 n)) = true ->
  forall c : Z, 0 <= c < Z.of_nat n -> P c = true.
Proof.
  intros H c Hc. rewrite forallb_forall in H. apply H.
  apply in_map_iff. exists (Z.to_nat c). split; [lia|].
  apply in_seq. lia.
Qed.

Lemma land_F0_high_nibble (c : Z) : 0 <= c <= 255 -> Z.land c 0xF0 = 16 * (c / 16).
Proof.
  intros Hc.
  apply Z.eqb_eq.
  apply (forallb_below (fun c => Z.land c 0xF0 =? 16 * (c / 16)) 256);
    [vm_compute; reflexivity | lia].
Qed.

Lemma lor_nibbles (x k : Z) :
  0 <= x < 16 -> 0 <= k < 16 -> Z.lor x (16 * k) = x + 16 * k.
Proof.
  intros Hx Hk. apply Z.eqb_eq.
  revert k Hk.
  apply (forallb_below
           (fun x => forallb (fun k => Z.lor x (16 * k) =? x + 16 * k)
                       (map Z.of_nat (seq 0 16))) 16) in Hx;
    [|vm_compute; reflexivity].
  intros k Hk.
  exact (forallb_below (fun k => Z.lor x (16 * k) =? x + 16 * k) 16 Hx k Hk).
Qed.

Lemma header_control_bytes_range (li : pystr) :
  0 <= rom_control_byte_0 (header li) <= 255
  /\ 0 <= rom_control_byte_1 (header li) <= 255
  /\ 0 <= nb_prg_page_16k (header li) <= 255.
Proof. unfold header, header_of. cbn. repeat split; apply ubyte_at_range. Qed.

(** The mapper number the script computes is the high nibble of the first
    control byte plus 16 times the high nibble of the second one; the low
    nibbles of both bytes play no part, and the number is one byte. *)
Theorem mapper_version_nibbles (li : pystr) :
  mapper_version_of (header li)
  = rom_control_byte_0 (header li) / 16
    + 16 * (rom_control_byte_1 (header li) / 16)
  /\ 0 <= mapper_version_of (header li) <= 255.
Proof.
  destruct (header_control_bytes_range li) as (H0 & H1 & _).
  split; [|apply mapper_version_range].
  unfold mapper_version_of.
  rewrite !land_F0_high_nibble by assumption.
  rewrite Z.shiftr_div_pow2 by lia. change (2 ^ 4) with 16.
  replace (16 * (rom_control_byte_0 (header li) / 16) / 16)
    with (rom_control_byte_0 (header li) / 16)
    by (rewrite Z.mul_comm, Z.div_mul; lia).
  apply lor_nibbles; Z.to_euclidean_division_equations; lia.
Qed.

(** ** Which images load (lines 144-182) *)

(** On an input of at least 16 bytes, [load_file] answers 1 exactly when the
    first control byte is below 0x60 and the second one below 0x10 (mapper
    numbers 0 to 5); on every other header it stops with [NameError] for the
    name [MAPPER_CAMERIC].  There is no third outcome. *)
Theorem load_file_succeeds_iff (li : pystr) (neflags : Z) (w : world) :
  (16 <= length li)%nat ->
  (snd (load_file li neflags ROM_FORMAT_NAME w) = inr 1
   <-> rom_control_byte_0 (header li) < 0x60
       /\ rom_control_byte_1 (header li) < 0x10)
  /\ (snd (load_file li neflags ROM_FORMAT_NAME w) = inl (NameError "MAPPER_CAMERIC")
      <-> ~ (rom_control_byte_0 (header li) < 0x60
             /\ rom_control_byte_1 (header li) < 0x10)).
Proof.
  intros Hlen.
  destruct (load_file_run li neflags w Hlen) as (w' & E & _).
  rewrite E. cbn [snd]. unfold outcome.
  destruct (header_control_bytes_range li) as (H0 & H1 & _).
  destruct (mapper_version_nibbles li) as (Hmv & _).
  pose proof (first_case_range (mapper_version_of (header li))) as Hr.
  assert (Hiff : 0 <= mapper_version_of (header li) <= 5
                 <-> rom_control_byte_0 (header li) < 96
                     /\ rom_control_byte_1 (header li) < 16)
    by (rewrite Hmv; Z.to_euclidean_division_equations; lia).
  destruct (first_case (mapper_version_of (header li))).
  - assert (Hin : rom_control_byte_0 (header li) < 96
                  /\ rom_control_byte_1 (header li) < 16)
      by (apply Hiff, Hr; reflexivity).
    split; split; intros H; try reflexivity; try exact Hin;
      try discriminate H; contradiction.
  - assert (Hout : ~ (rom_control_byte_0 (header li) < 96
                      /\ rom_control_byte_1 (header li) < 16)).
    { intros Hin. apply Hiff, Hr in Hin. discriminate Hin. }
    split; split; intros H; try reflexivity; try exact Hout;
      try discriminate H; contradiction.
Qed.

Lemma load_file_succeeds_iff_witness :
  (16 <= length bare_header)%nat
  /\ snd (load_file bare_header 0 ROM_FORMAT_NAME fresh) = inr 1.
Proof.
  assert (H : (16 <= length bare_header)%nat) by (vm_compute; lia).
  split; [exact H|].
  pose proof (load_file_succeeds_iff bare_header 0 fresh H) as P.
  destruct P as ((_ & P) & _).
  apply P. vm_compute. split; reflexivity.
Defined.

(** ** Diagnostics and read position *)

(** With its own format name [load_file] never emits a warning, whatever the
    input: the condition of the first branch is true or raises, so the three
    [Warning] calls of lines 168-175 are never reached. *)
Theorem load_file_never_warns (li : pystr) (neflags : Z) (w : world) :
  warnings (fst (load_file li neflags ROM_FORMAT_NAME w)) = warnings w
  /\ forall (mapper_version : Z) (w0 : world),
       snd (first_case_condition mapper_version w0) <> inr false.
Proof.
  split.
  - destruct (Nat.lt_ge_cases (length li) 16) as [Hs|Hl].
    + rewrite (load_file_short li neflags w Hs). destruct w; reflexivity.
    + destruct (load_file_run li neflags w Hl) as (w' & E & _ & Hw & _).
      now rewrite E.
  - intros mv w0. rewrite first_case_condition_run. cbn [snd].
    destruct (first_case mv); discriminate.
Qed.

(** [load_file] positions the input itself: its result does not depend on
    the read position it starts from, in particular not on a preceding call
    of [accept_file]. *)
Theorem load_file_after_accept_file (li : pystr) (neflags n : Z) (w : world) (p : Z) :
  load_file li neflags ROM_FORMAT_NAME (upd_pos (fun _ => p) w)
  = load_file li neflags ROM_FORMAT_NAME w
  /\ load_file li neflags ROM_FORMAT_NAME (fst (accept_file li n w))
     = load_file li neflags ROM_FORMAT_NAME w.
Proof.
  assert (Hpos : forall q w1,
             load_file li neflags ROM_FORMAT_NAME (upd_pos (fun _ => q) w1)
             = load_file li neflags ROM_FORMAT_NAME w1).
  { intros q [p0 sg bs ld wn lg]. unfold load_file.
    rewrite String.eqb_refl. cbn [negb].
    rewrite !bind_host. norm_world. rewrite !bind_li_seek. norm_world.
    reflexivity. }
  split; [apply Hpos|].
  unfold accept_file. destruct (0 <? n); [reflexivity|].
  rewrite bind_li_seek. unfold bind, li_read.
  destruct (decide _); unfold ret; cbn [fst];
    destruct w as [p0 sg bs ld wn lg]; norm_world;
    apply (Hpos _ (World p0 sg bs ld wn lg)).
Qed.

(** ** What a load writes *)

Lemma populated_outside_windows (li : pystr) (h : NES_HEADER) (m : gmap Z byte) (a : Z) :
  ~ (0 <= a < 0x2000) -> ~ (0x8000 <= a < 0x10000) ->
  populated li h m !! a = m !! a.
Proof.
  intros H1 H2. unfold populated.
  pose proof (available_length li
    (chrBankOffset (trainer_present h) (nb_prg_page_16k h) 1) 0x2000).
  pose proof (available_length li
    (prgBankOffset (trainer_present h) (nb_prg_page_16k h)) 0x4000).
  pose proof (available_length li (prgBankOffset (trainer_present h) 1) 0x4000).
  rewrite !write_bytes_lookup.
  repeat case_decide; try reflexivity; lia.
Qed.

Lemma zeroed_outside (h : NES_HEADER) (m : gmap Z byte) (a : Z) :
  (forall s, In s (layout h) -> ~ (seg_start s <= a < seg_end s)) ->
  zeroed h m !! a = m !! a.
Proof.
  unfold layout, zeroed. intros Hout.
  assert (H1 : ~ (0 <= a < 0x2000))
    by (apply (Hout RAM_region); rewrite !in_app_iff; cbn [In]; tauto).
  assert (H2 : ~ (0x2000 <= a < 0x4020))
    by (apply (Hout IOREG_region); rewrite !in_app_iff; cbn [In]; tauto).
  assert (H3 : ~ (0x4020 <= a < 0x6000))
    by (apply (Hout EXPROM_region); rewrite !in_app_iff; cbn [In]; tauto).
  assert (H4 : ~ (0x8000 <= a < 0x10000))
    by (apply (Hout ROM_region); rewrite !in_app_iff; cbn [In]; tauto).
  assert (H5 : sram_present h = true -> ~ (0x6000 <= a < 0x8000)).
  { intros E. apply (Hout SRAM_region). rewrite E, !in_app_iff. cbn [In]. tauto. }
  assert (H6 : trainer_present h = true -> ~ (0x7000 <= a < 0x7200)).
  { intros E. apply (Hout TRAINER_region). rewrite E, !in_app_iff. cbn [In]. tauto. }
  destruct (sram_present h), (trainer_present h);
    try specialize (H5 eq_refl); try specialize (H6 eq_refl);
    unfold id; rewrite ?zero_fill_lookup; unfold_layout_constants;
    repeat case_decide; try reflexivity; lia.
Qed.

Lemma inner_region_bounds (h : NES_HEADER) (s : segment) :
  In s (layout h) -> s <> RAM_region -> s <> ROM_region ->
  0x2000 <= seg_start s /\ seg_end s <= 0x8000.
Proof.
  unfold layout. intros Hin H1 H2.
  destruct (sram_present h), (trainer_present h); cbn [app In] in Hin;
    repeat (destruct Hin as [<-|Hin]; [try contradiction; cbn; lia|]);
    contradiction.
Qed.

(** A load writes only inside the regions it creates: a byte at an address
    that belongs to no region of the layout is as it was before.  Of the
    regions, only RAM and ROM ever receive data: every byte of IOREG, EXPROM,
    SRAM and TRAINER is 0 after the load, whatever its outcome. *)
Theorem load_file_writes_inside_regions (li : pystr) (neflags : Z) (w : world) :
  (16 <= length li)%nat ->
  (forall a : Z,
      (forall s, In s (layout (header li)) -> ~ (seg_start s <= a < seg_end s)) ->
      bytes (fst (load_file li neflags ROM_FORMAT_NAME w)) !! a = bytes w !! a)
  /\ (forall (s : segment) (a : Z),
        In s (layout (header li)) -> s <> RAM_region -> s <> ROM_region ->
        seg_start s <= a < seg_end s ->
        bytes (fst (load_file li neflags ROM_FORMAT_NAME w)) !! a = Some Byte.x00).
Proof.
  intros Hlen.
  destruct (load_file_run li neflags w Hlen) as (w' & E & _ & _ & _ & Hb).
  rewrite E. cbn [fst]. rewrite Hb. split.
  - intros a Hout.
    assert (H1 : ~ (0 <= a < 0x2000)).
    { apply (Hout RAM_region). unfold layout. cbn [app In]. tauto. }
    assert (H2 : ~ (0x8000 <= a < 0x10000)).
    { apply (Hout ROM_region). unfold layout. rewrite !in_app_iff. cbn [In]. tauto. }
    destruct (first_case _); unfold id.
    + rewrite populated_outside_windows by assumption. now apply zeroed_outside.
    + now apply zeroed_outside.
  - intros s a Hin Hr1 Hr2 Ha.
    destruct (inner_region_bounds _ s Hin Hr1 Hr2) as (B1 & B2).
    destruct (first_case _); unfold id.
    + rewrite populated_outside by lia. now apply (zeroed_lookup_region _ _ s).
    + now apply (zeroed_lookup_region _ _ s).
Qed.

Lemma load_file_writes_inside_regions_witness :
  (16 <= length image_nrom)%nat
  /\ bytes (fst (load_file image_nrom 0 ROM_FORMAT_NAME fresh)) !! 0x6000
     = bytes fresh !! 0x6000.
Proof.
  assert (H : (16 <= length image_nrom)%nat)
    by (apply Nat.leb_le; vm_compute; reflexivity).
  split; [exact H|].
  pose proof (load_file_writes_inside_regions image_nrom 0 fresh H) as P.
  destruct P as (P & _). apply P.
  intros s Hin.
  assert (L : layout (header image_nrom)
              = [RAM_region; IOREG_region; EXPROM_region; ROM_region])
    by (vm_compute; reflexivity).
  rewrite L in Hin. cbn [In] in Hin.
  destruct Hin as [<-|[<-|[<-|[<-|[]]]]]; cbn; lia.
Defined.

(** The regions created for a header cover the addresses below 0x6000 and
    from 0x8000 to 0xFFFF always, the window 0x6000-0x7FFF when bit 1 of the
    first control byte is set, the window 0x7000-0x71FF when bit 2 is set,
    and no other address. *)
Theorem address_space_coverage (li : pystr) (neflags : Z) (w : world) (a : Z) :
  (16 <= length li)%nat -> segs w = [] ->
  ((exists s, In s (regions (fst (load_file li neflags ROM_FORMAT_NAME w)))
              /\ seg_start s <= a < seg_end s)
   <-> (0 <= a < 0x6000 \/ 0x8000 <= a < 0x10000
        \/ (Z.land (rom_control_byte_0 (header li)) 0x02 <> 0 /\ 0x6000 <= a < 0x8000)
        \/ (Z.land (rom_control_byte_0 (header li)) 0x04 <> 0 /\ 0x7000 <= a < 0x7200))).
Proof.
  intros Hlen Hw.
  rewrite (regions_after_load li neflags w Hlen).
  unfold regions. rewrite Hw. cbn [rev app].
  pose proof (flag_bit (rom_control_byte_0 (header li)) 2) as B1.
  pose proof (flag_bit (rom_control_byte_0 (header li)) 4) as B2.
  fold (sram_present (header li)) in B1.
  fold (trainer_present (header li)) in B2.
  unfold layout.
  destruct (sram_present (header li)), (trainer_present (header li));
    cbn [app]; split.
  all: try (intros (s & Hin & Ha); cbn [In] in Hin;
            repeat (destruct Hin as [<-|Hin]; [cbn in Ha|]); try contradiction;
            try lia;
            try (right; right; left; split; [apply B1; reflexivity | lia]);
            try (right; right; right; split; [apply B2; reflexivity | lia])).
  all: intros [Ha|[Ha|[[Hb Ha]|[Hb Ha]]]];
    try (apply B1 in Hb; discriminate Hb);
    try (apply B2 in Hb; discriminate Hb).
  all: try (assert (Hc : 0 <= a < 0x2000 \/ 0x2000 <= a < 0x4020
                         \/ 0x4020 <= a < 0x6000) by lia;
            destruct Hc as [Hc|[Hc|Hc]];
            [exists RAM_region | exists IOREG_region | exists EXPROM_region];
            (split; [cbn [In]; tauto | cbn; lia])).
  all: try (exists ROM_region; split; [cbn [In]; tauto | cbn; lia]).
  all: try (exists SRAM_region; split; [cbn [In]; tauto | cbn; lia]).
  all: try (exists TRAINER_region; split; [cbn [In]; tauto | cbn; lia]).
Qed.

Lemma address_space_coverage_witness :
  (16 <= length bare_header)%nat /\ segs fresh = []
  /\ ~ exists s, In s (regions (fst (load_file bare_header 0 ROM_FORMAT_NAME fresh)))
                 /\ seg_start s <= 0x6000 < seg_end s.
Proof.
  assert (H : (16 <= length bare_header)%nat) by (vm_compute; lia).
  split; [exact H|]. split; [reflexivity|].
  pose proof (address_space_coverage bare_header 0 fresh 0x6000 H eq_refl) as P.
  destruct P as (P & _). intros Hex. apply P in Hex.
  destruct Hex as [Ha|[Ha|[[Hb _]|[_ Ha]]]]; try lia.
  apply Hb. vm_compute. reflexivity.
Defined.

(** ** Placement of the banks (lines 153-167) *)

(** When the first branch is taken: if at least one PRG bank is announced
    and the source contains the last announced PRG bank, the upper half of
    the ROM region holds the bytes of that bank; if the source contains the
    first CHR bank, the start of the RAM region holds its bytes; and with a
    single PRG bank the two halves of the ROM region are equal. *)
Theorem prg_and_chr_banks_placed (li : pystr) (neflags : Z) (w : world) :
  (16 <= length li)%nat ->
  0 <= mapper_version_of (header li) <= 5 ->
  let h := header li in
  let t := if trainer_present h then 512 else 0 in
  let n := nb_prg_page_16k h in
  let m := bytes (fst (load_file li neflags ROM_FORMAT_NAME w)) in
  (1 <= n ->
   16 + t + (n - 1) * 16384 + 0x4000 <= Z.of_nat (length li) ->
   forall i, 0 <= i < 0x4000 ->
     m !! (0xC000 + i) = li !! Z.to_nat (16 + t + (n - 1) * 16384 + i))
  /\ (16 + t + n * 16384 + 0x2000 <= Z.of_nat (length li) ->
      forall i, 0 <= i < 0x2000 ->
        m !! i = li !! Z.to_nat (16 + t + n * 16384 + i))
  /\ (n = 1 -> forall i, 0 <= i < 0x4000 -> m !! (0x8000 + i) = m !! (0xC000 + i)).
Proof.
  intros Hlen Hmv h t n m.
  destruct (first_case_load li neflags w Hlen Hmv) as (_ & _ & _ & Hlo & Hhi & Hram).
  destruct (header_control_bytes_range li) as (_ & _ & Hn).
  subst m n t h.
  assert (Ht : 0 <= (if trainer_present (header li) then 512 else 0) <= 512)
    by (destruct (trainer_present (header li)); lia).
  split; [|split].
  - intros Hn1 Hfull i Hi. rewrite (Hhi i Hi).
    assert (Hoff : prgBankOffset (trainer_present (header li))
                     (nb_prg_page_16k (header li))
                   = 16 + (if trainer_present (header li) then 512 else 0)
                     + (nb_prg_page_16k (header li) - 1) * 16384)
      by (unfold prgBankOffset, trainerAdjustment;
          destruct (trainer_present (header li)); lia).
    rewrite Hoff. rewrite available_lookup by lia.
    match goal with
    | |- Some (default _ (li !! ?k)) = li !! ?k' =>
        replace k with k' by lia;
        destruct (lookup_lt_is_Some_2 li k') as [x Hx]; [lia|]; now rewrite Hx
    end.
  - intros Hfull i Hi. rewrite (Hram i Hi).
    assert (Hoff : chrBankOffset (trainer_present (header li))
                     (nb_prg_page_16k (header li)) 1
                   = 16 + (if trainer_present (header li) then 512 else 0)
                     + nb_prg_page_16k (header li) * 16384)
      by (unfold chrBankOffset, trainerAdjustment;
          destruct (trainer_present (header li)); lia).
    rewrite Hoff. rewrite available_lookup by lia.
    match goal with
    | |- Some (default _ (li !! ?k)) = li !! ?k' =>
        replace k with k' by lia;
        destruct (lookup_lt_is_Some_2 li k') as [x Hx]; [lia|]; now rewrite Hx
    end.
  - intros Hn1 i Hi. rewrite (Hlo i Hi), (Hhi i Hi). now rewrite Hn1.
Qed.

Lemma prg_and_chr_banks_placed_witness :
  (16 <= length image_nrom)%nat
  /\ 0 <= mapper_version_of (header image_nrom) <= 5
  /\ (forall i, 0 <= i < 0x4000 ->
        bytes (fst (load_file image_nrom 0 ROM_FORMAT_NAME fresh)) !! (0xC000 + i)
        = image_nrom !! Z.to_nat (16 + 0 + (1 - 1) * 16384 + i))
  /\ (forall i, 0 <= i < 0x4000 ->
        bytes (fst (load_file image_nrom 0 ROM_FORMAT_NAME fresh)) !! (0x8000 + i)
        = bytes (fst (load_file image_nrom 0 ROM_FORMAT_NAME fresh)) !! (0xC000 + i)).
Proof.
  assert (H1 : (16 <= length image_nrom)%nat)
    by (apply Nat.leb_le; vm_compute; reflexivity).
  assert (H2 : 0 <= mapper_version_of (header image_nrom) <= 5)
    by (vm_compute; split; discriminate).
  assert (Ht : trainer_present (header image_nrom) = false)
    by (vm_compute; reflexivity).
  assert (Hn : nb_prg_page_16k (header image_nrom) = 1)
    by (vm_compute; reflexivity).
  assert (Hl : Z.of_nat (length image_nrom) = 24592)
    by (vm_compute; reflexivity).
  split; [exact H1|]. split; [exact H2|].
  pose proof (prg_and_chr_banks_placed image_nrom 0 fresh H1 H2) as P.
  cbv zeta in P. rewrite Ht, Hn, Hl in P. destruct P as (P1 & _ & P3).
  split.
  - apply P1; lia.
  - apply P3. reflexivity.
Defined.

(** ** The bank helpers (lines 81-93) *)

Lemma write_available_lookup (li : pystr) (pos ea n : Z) (m : gmap Z byte) (a : Z) :
  0 <= pos -> 0 <= n ->
  write_bytes ea (available li pos n) m !! a
  = if decide (ea <= a < ea + n)
    then match li !! Z.to_nat (pos + (a - ea)) with
         | Some x => Some x
         | None => m !! a
         end
    else m !! a.
Proof.
  intros Hp Hn. rewrite write_bytes_lookup.
  pose proof (available_length li pos n) as Hl.
  assert (Hlen : Z.of_nat (length (available li pos n))
                 = Z.min n (Z.max 0 (Z.of_nat (length li) - pos))).
  { unfold available. destruct (Z.ltb_spec pos 0); [lia|].
    rewrite length_take, length_drop. lia. }
  destruct (decide (ea <= a < ea + n)) as [Hin|Hout].
  - case_decide as Hd.
    + rewrite available_lookup by lia.
      replace (Z.to_nat pos + Z.to_nat (a - ea))%nat with (Z.to_nat (pos + (a - ea)))
        by lia.
      destruct (lookup_lt_is_Some_2 li (Z.to_nat (pos + (a - ea)))) as [x Hx]; [lia|].
      now rewrite Hx.
    + rewrite lookup_ge_None_2 by lia. reflexivity.
  - rewrite decide_False by lia. reflexivity.
Qed.

(** [load_prg_rom_bank] and [load_chr_rom_bank] never fail and never touch
    the segments or the warnings, and they leave every database byte outside
    the window [va, va + 16384), respectively [va, va + 8192), as it was.
    When the file offset of the bank is not negative and the source contains
    the whole bank, the window holds the bytes of the bank afterwards. *)
Theorem bank_helpers_copy (li : pystr) (h : NES_HEADER) (b va : Z) (w : world) :
  let t := if trainer_present h then 512 else 0 in
  let prg := 16 + t + (b - 1) * 16384 in
  let chr := 16 + t + nb_prg_page_16k h * 16384 + (b - 1) * 8192 in
  (snd (load_prg_rom_bank li h b va w) = inr tt
   /\ segs (fst (load_prg_rom_bank li h b va w)) = segs w
   /\ warnings (fst (load_prg_rom_bank li h b va w)) = warnings w
   /\ (forall a, ~ (va <= a < va + 16384) ->
         bytes (fst (load_prg_rom_bank li h b va w)) !! a = bytes w !! a)
   /\ (0 <= prg -> prg + 16384 <= Z.of_nat (length li) ->
       forall i, 0 <= i < 16384 ->
         bytes (fst (load_prg_rom_bank li h b va w)) !! (va + i)
         = li !! Z.to_nat (prg + i)))
  /\ (snd (load_chr_rom_bank li h b va w) = inr tt
      /\ segs (fst (load_chr_rom_bank li h b va w)) = segs w
      /\ warnings (fst (load_chr_rom_bank li h b va w)) = warnings w
      /\ (forall a, ~ (va <= a < va + 8192) ->
            bytes (fst (load_chr_rom_bank li h b va w)) !! a = bytes w !! a)
      /\ (0 <= chr -> chr + 8192 <= Z.of_nat (length li) ->
          forall i, 0 <= i < 8192 ->
            bytes (fst (load_chr_rom_bank li h b va w)) !! (va + i)
            = li !! Z.to_nat (chr + i))).
Proof.
  intros t prg chr. split.
  - unfold load_prg_rom_bank. cbv zeta.
    rewrite inline_prg_offset, bind_file2base.
    destruct w as [p sg bs ld wn lg]. unfold ret. norm_world. cbn [fst snd].
    norm_world.
    replace (va + PRG_PAGE_SIZE - va) with 16384 by (unfold PRG_PAGE_SIZE; lia).
    replace (prgBankOffset (trainer_present h) b) with prg
      by (subst prg t; unfold prgBankOffset, trainerAdjustment; reflexivity).
    split; [reflexivity|]. split; [reflexivity|]. split; [reflexivity|]. split.
    + intros a Ha. rewrite write_bytes_lookup.
      pose proof (available_length li prg 16384).
      rewrite decide_False by lia. reflexivity.
    + intros Hp Hfull i Hi. rewrite write_available_lookup by lia.
      rewrite decide_True by lia.
      replace (prg + (va + i - va)) with (prg + i) by lia.
      destruct (lookup_lt_is_Some_2 li (Z.to_nat (prg + i))) as [x Hx]; [lia|].
      now rewrite Hx.
  - unfold load_chr_rom_bank. cbv zeta.
    rewrite inline_chr_offset, bind_file2base.
    destruct w as [p sg bs ld wn lg]. unfold ret. norm_world. cbn [fst snd].
    norm_world.
    replace (va + CHR_PAGE_SIZE - va) with 8192 by (unfold CHR_PAGE_SIZE; lia).
    replace (chrBankOffset (trainer_present h) (nb_prg_page_16k h) b) with chr
      by (subst chr t; unfold chrBankOffset, trainerAdjustment; reflexivity).
    split; [reflexivity|]. split; [reflexivity|]. split; [reflexivity|]. split.
    + intros a Ha. rewrite write_bytes_lookup.
      pose proof (available_length li chr 8192).
      rewrite decide_False by lia. reflexivity.
    + intros Hp Hfull i Hi. rewrite write_available_lookup by lia.
      rewrite decide_True by lia.
      replace (chr + (va + i - va)) with (chr + i) by lia.
      destruct (lookup_lt_is_Some_2 li (Z.to_nat (chr + i))) as [x Hx]; [lia|].
      now rewrite Hx.
Qed.

Lemma bank_helpers_copy_witness :
  0 <= 16 + 0 + (1 - 1) * 16384
  /\ 16 + 0 + (1 - 1) * 16384 + 16384 <= Z.of_nat (length image_nrom)
  /\ forall i, 0 <= i < 16384 ->
       bytes (fst (load_prg_rom_bank image_nrom header_two_banks 1 0x8000 fresh))
         !! (0x8000 + i)
       = image_nrom !! Z.to_nat (16 + 0 + (1 - 1) * 16384 + i).
Proof.
  assert (H1 : 0 <= 16 + 0 + (1 - 1) * 16384) by lia.
  assert (H2 : 16 + 0 + (1 - 1) * 16384 + 16384 <= Z.of_nat (length image_nrom))
    by (vm_compute; discriminate).
  split; [exact H1|]. split; [exact H2|].
  pose proof (bank_helpers_copy image_nrom header_two_banks 1 0x8000 fresh) as P.
  cbv zeta in P. destruct P as ((_ & _ & _ & _ & P) & _).
  exact (P H1 H2).
Defined.

(** ** Host calls of a load: comments, names and entry point *)

Lemma naming_fold (lg : list host_call) :
  fold_left (fun acc e =>
               MakeWordCall (fst e)
               :: MakeNameExCall (fst e) (snd e) ["SN_NOCHECK"; "SN_NOWARN"]%string
               :: acc)
            naming_table lg
  = rev naming_calls ++ lg.
Proof. reflexivity. Qed.

Lemma load_file_log (li : pystr) (neflags : Z) (w : world) :
  (16 <= length li)%nat ->
  exists w',
    load_file li neflags ROM_FORMAT_NAME w = (w', outcome (header li))
    /\ host_log w' =
       (if first_case (mapper_version_of (header li))
        then [ SetBeginEA (Z.lor (Byte_at (bytes w') 0xFFFC)
                                 (Z.shiftl (Byte_at (bytes w') (0xFFFC + 1)) 8));
               SetStartIP (Z.lor (Byte_at (bytes w') 0xFFFC)
                                 (Z.shiftl (Byte_at (bytes w') (0xFFFC + 1)) 8));
               AddEntry (Z.lor (Byte_at (bytes w') 0xFFFC)
                               (Z.shiftl (Byte_at (bytes w') (0xFFFC + 1)) 8))
                        (Z.lor (Byte_at (bytes w') 0xFFFC)
                               (Z.shiftl (Byte_at (bytes w') (0xFFFC + 1)) 8))
                        "start" 1 ]
             ++ rev naming_calls
        else [])
       ++ rev (header_comments li)
       ++ [ SetSegmentType ROM_START ["SEG_CODE"; "SEG_DATA"]%string;
            SetProcessorType "M6502" ["SETPROC_ALL"; "SETPROC_FATAL"]%string ]
       ++ host_log w.
Proof.
  intros Hlen. destruct w as [p sg bs ld wn lg].
  unfold load_file. rewrite String.eqb_refl. cbn [negb].
  rewrite bind_host; norm_world.
  rewrite bind_li_seek; norm_world.
  rewrite bind_li_tell; norm_world.
  rewrite bind_li_seek; norm_world.
  rewrite bind_li_read by (norm_world; unfold LEN_NES_HEADER; lia); norm_world.
  change (Z.to_nat 0) with 0%nat. change (Z.to_nat LEN_NES_HEADER) with 16%nat.
  rewrite drop_0.
  rewrite from_buffer_copy_ok by (rewrite length_take; lia).
  change (header_of (take 16 li)) with (header li).
  set (h := header li).
  match goal with
  | |- context [bind (ret h) ?k ?w0] => change (bind (ret h) k w0) with (k h w0)
  end.
  cbv beta.
  match goal with
  | |- context [bind (create_segments h) ?k ?w0] =>
      rewrite (bind_ok _ k w0 _ _ (create_segments_run h w0))
  end.
  norm_world.
  match goal with
  | |- context [bind (describe_header_info li) ?k ?w0] =>
      rewrite (bind_ok _ k w0 _ _
                 (describe_header_info_comments li w0 ltac:(lia)))
  end.
  norm_world.
  match goal with
  | |- context [bind (mapper_dispatch li h) ?k ?w0] =>
      destruct (mapper_dispatch_run li h w0) as (p2 & E2)
  end.
  unfold outcome.
  destruct (first_case (mapper_version_of h)).
  - rewrite (bind_ok _ _ _ _ _ E2); clear E2. norm_world.
    unfold naming. rewrite bind_modify. norm_world. rewrite naming_fold.
    rewrite bind_Word; norm_world.
    rewrite bind_Word; norm_world.
    rewrite bind_host; norm_world.
    rewrite bind_Word; norm_world.
    rewrite bind_host; norm_world.
    rewrite bind_Word; norm_world.
    rewrite bind_host; norm_world.
    eexists. split; [reflexivity|]. norm_world.
    reflexivity.
  - rewrite (bind_raise _ _ _ _ _ E2); clear E2.
    eexists. split; [reflexivity|]. norm_world.
    reflexivity.
Qed.

(** On an input whose header can be read, the host is asked, in this order,
    to select the processor, to mark the ROM segment as code and data, and to
    attach the nine header comments.  When the load answers 1 the 35 names of
    [naming] follow, then the entry point, the start address and the begin
    address, all three equal to the 16-bit value stored at 0xFFFC.  When the
    load stops with an error, nothing is named and no entry point is
    registered. *)
Theorem load_file_host_calls (li : pystr) (neflags : Z) (w : world) :
  (16 <= length li)%nat ->
  let r := load_file li neflags ROM_FORMAT_NAME w in
  let v := Z.lor (Byte_at (bytes (fst r)) 0xFFFC)
                 (Z.shiftl (Byte_at (bytes (fst r)) 0xFFFD) 8) in
  let before :=
    rev (header_comments li)
    ++ [ SetSegmentType ROM_START ["SEG_CODE"; "SEG_DATA"]%string;
         SetProcessorType "M6502" ["SETPROC_ALL"; "SETPROC_FATAL"]%string ]
    ++ host_log w in
  (snd r = inr 1 ->
   host_log (fst r)
   = [SetBeginEA v; SetStartIP v; AddEntry v v "start" 1]
     ++ rev naming_calls ++ before)
  /\ (snd r <> inr 1 -> host_log (fst r) = before).
Proof.
  intros Hlen r v before. subst r v before.
  destruct (load_file_log li neflags w Hlen) as (w' & E & Hlog).
  rewrite E. cbn [fst snd]. rewrite Hlog. unfold outcome.
  destruct (first_case (mapper_version_of (header li))).
  - split; [intros _ | intros H; now elim H].
    rewrite <- app_assoc. reflexivity.
  - split; [intros H; discriminate H | intros _; reflexivity].
Qed.

Lemma load_file_host_calls_witness :
  (16 <= length bare_header_mmc2)%nat
  /\ host_log (fst (load_file bare_header_mmc2 0 ROM_FORMAT_NAME fresh))
     = rev (header_comments bare_header_mmc2)
       ++ [ SetSegmentType ROM_START ["SEG_CODE"; "SEG_DATA"]%string;
            SetProcessorType "M6502" ["SETPROC_ALL"; "SETPROC_FATAL"]%string ]
       ++ host_log fresh.
Proof.
  assert (H : (16 <= length bare_header_mmc2)%nat) by (vm_compute; lia).
  split; [exact H|].
  pose proof (load_file_host_calls bare_header_mmc2 0 fresh H) as P.
  cbv zeta in P. destruct P as (_ & P).
  apply P. vm_compute. discriminate.
Defined.

Lemma lor_shift_bytes (lo hi : Z) :
  0 <= lo <= 255 -> 0 <= hi <= 255 -> Z.lor lo (Z.shiftl hi 8) = lo + 256 * hi.
Proof.
  intros Hlo Hhi. apply Z.eqb_eq.
  assert (Hl : 0 <= lo < Z.of_nat 256) by lia.
  assert (Hh : 0 <= hi < Z.of_nat 256) by lia.
  apply (forallb_below
           (fun lo => forallb (fun hi => Z.lor lo (Z.shiftl hi 8) =? lo + 256 * hi)
                        (map Z.of_nat (seq 0 256))) 256) in Hl;
    [|vm_compute; reflexivity].
  exact (forallb_below (fun hi => Z.lor lo (Z.shiftl hi 8) =? lo + 256 * hi)
           256 Hl hi Hh).
Qed.

(** When the first branch is taken, at least one PRG bank is announced and
    the source contains the whole last PRG bank, the entry point, the start
    address and the begin address registered by [load_file] are the
    little-endian word found 0x3FFC bytes into that bank. *)
Theorem entry_point_is_reset_vector (li : pystr) (neflags : Z) (w : world) :
  (16 <= length li)%nat ->
  0 <= mapper_version_of (header li) <= 5 ->
  1 <= nb_prg_page_16k (header li) ->
  let h := header li in
  let off := 16 + (if trainer_present h then 512 else 0)
             + (nb_prg_page_16k h - 1) * 16384 in
  off + 0x4000 <= Z.of_nat (length li) ->
  exists lo hi rest,
    li !! Z.to_nat (off + 0x3FFC) = Some lo
    /\ li !! Z.to_nat (off + 0x3FFD) = Some hi
    /\ host_log (fst (load_file li neflags ROM_FORMAT_NAME w))
       = SetBeginEA (byte_to_Z lo + 256 * byte_to_Z hi)
         :: SetStartIP (byte_to_Z lo + 256 * byte_to_Z hi)
         :: AddEntry (byte_to_Z lo + 256 * byte_to_Z hi)
                     (byte_to_Z lo + 256 * byte_to_Z hi) "start" 1
         :: rest.
Proof.
  intros Hlen Hmv Hn h off Hfull.
  destruct (load_file_host_calls li neflags w Hlen) as (Hlog & _).
  destruct (first_case_load li neflags w Hlen Hmv) as (Hr & _ & _ & _ & Hhi & _).
  specialize (Hlog Hr).
  assert (Ht : 0 <= (if trainer_present (header li) then 512 else 0) <= 512)
    by (destruct (trainer_present (header li)); lia).
  assert (Hb : forall i, 0 <= i < 0x4000 ->
             exists x, li !! Z.to_nat (off + i) = Some x
                       /\ Byte_at (bytes (fst (load_file li neflags ROM_FORMAT_NAME w)))
                            (0xC000 + i) = byte_to_Z x).
  { intros i Hi. unfold Byte_at. rewrite (Hhi i Hi).
    assert (Hoff : prgBankOffset (trainer_present (header li))
                     (nb_prg_page_16k (header li)) = off)
      by (subst off h; unfold prgBankOffset, trainerAdjustment;
          destruct (trainer_present (header li)); lia).
    rewrite Hoff. subst off h. rewrite available_lookup by lia.
    match goal with
    | |- context [default _ (li !! ?k)] =>
        destruct (lookup_lt_is_Some_2 li k) as [x Hx]; [lia|];
        exists x; rewrite Hx; split; [|reflexivity];
        rewrite <- Hx; f_equal; lia
    end. }
  destruct (Hb 0x3FFC ltac:(lia)) as (lo & Hlo & H1).
  destruct (Hb 0x3FFD ltac:(lia)) as (hi & Hhi2 & H2).
  change (0xC000 + 0x3FFC) with 0xFFFC in H1.
  change (0xC000 + 0x3FFD) with 0xFFFD in H2.
  rewrite H1, H2 in Hlog.
  rewrite lor_shift_bytes in Hlog by apply byte_to_Z_range.
  exists lo, hi. eexists. split; [exact Hlo|]. split; [exact Hhi2|]. exact Hlog.
Qed.

Lemma entry_point_is_reset_vector_witness :
  (16 <= length image_nrom)%nat
  /\ 0 <= mapper_version_of (header image_nrom) <= 5
  /\ 1 <= nb_prg_page_16k (header image_nrom)
  /\ 16 + 0 + (1 - 1) * 16384 + 0x4000 <= Z.of_nat (length image_nrom)
  /\ exists lo hi rest,
       image_nrom !! Z.to_nat (16 + 0 + (1 - 1) * 16384 + 0x3FFC) = Some lo
       /\ image_nrom !! Z.to_nat (16 + 0 + (1 - 1) * 16384 + 0x3FFD) = Some hi
       /\ host_log (fst (load_file image_nrom 0 ROM_FORMAT_NAME fresh))
          = SetBeginEA (byte_to_Z lo + 256 * byte_to_Z hi)
            :: SetStartIP (byte_to_Z lo + 256 * byte_to_Z hi)
            :: AddEntry (byte_to_Z lo + 256 * byte_to_Z hi)
                        (byte_to_Z lo + 256 * byte_to_Z hi) "start" 1
            :: rest.
Proof.
  assert (H1 : (16 <= length image_nrom)%nat)
    by (apply Nat.leb_le; vm_compute; reflexivity).
  assert (H2 : 0 <= mapper_version_of (header image_nrom) <= 5)
    by (vm_compute; split; discriminate).
  assert (H3 : 1 <= nb_prg_page_16k (header image_nrom))
    by (vm_compute; discriminate).
  assert (H4 : 16 + 0 + (1 - 1) * 16384 + 0x4000 <= Z.of_nat (length image_nrom))
    by (vm_compute; discriminate).
  assert (Ht : trainer_present (header image_nrom) = false)
    by (vm_compute; reflexivity).
  assert (Hn : nb_prg_page_16k (header image_nrom) = 1)
    by (vm_compute; reflexivity).
  split; [exact H1|]. split; [exact H2|]. split; [exact H3|]. split; [exact H4|].
  pose proof (entry_point_is_reset_vector image_nrom 0 fresh H1 H2 H3) as P.
  cbv zeta in P. rewrite Ht, Hn in P.
  exact (P H4).
Defined.

(** ** [naming] (lines 196-266) *)

(** [naming] cannot fail and only adds its 35 pairs of calls (a name, then a
    word, at the same address) to the host log.  Every word it asks for lies
    inside a region that [load_file] creates for every header (IOREG for the
    registers, ROM for the three vectors), and neither an address nor a name
    occurs twice. *)
Theorem naming_stays_in_regions (h : NES_HEADER) (w : world) :
  naming w = (upd_log (app (rev naming_calls)) w, inr tt)
  /\ (forall ea name,
        In (ea, name) naming_table ->
        exists s, In s (layout h) /\ seg_start s <= ea /\ ea + 2 <= seg_end s)
  /\ NoDup (map fst naming_table)
  /\ NoDup (map snd naming_table).
Proof.
  split; [|split; [|split]].
  - unfold naming, modify. destruct w as [p sg bs ld wn lg]. norm_world.
    rewrite naming_fold. reflexivity.
  - intros ea name Hin.
    assert (Hall : forallb (fun e => ((0x2000 <=? fst e) && (fst e + 2 <=? 0x4020))
                                     || ((0x8000 <=? fst e) && (fst e + 2 <=? 0x10000)))
                     naming_table = true) by (vm_compute; reflexivity).
    rewrite forallb_forall in Hall. specialize (Hall _ Hin). cbn [fst] in Hall.
    apply orb_true_iff in Hall. destruct Hall as [Hc|Hc];
      apply andb_true_iff in Hc; destruct Hc as [Hc1 Hc2];
      apply Z.leb_le in Hc1; apply Z.leb_le in Hc2.
    + exists IOREG_region. unfold layout. cbn [app In seg_start seg_end IOREG_region].
      split; [tauto | lia].
    + exists ROM_region. unfold layout. rewrite !in_app_iff.
      cbn [In seg_start seg_end ROM_region]. split; [tauto | lia].
  - apply (bool_decide_unpack _). vm_compute. exact I.
  - apply (bool_decide_unpack _). vm_compute. exact I.
Qed.

Lemma naming_stays_in_regions_witness :
  In (0xFFFC, "RESET_vector"%string) naming_table
  /\ exists s, In s (layout header_two_banks)
               /\ seg_start s <= 0xFFFC /\ 0xFFFC + 2 <= seg_end s.
Proof.
  assert (H : In (0xFFFC, "RESET_vector"%string) naming_table)
    by (unfold naming_table; cbn [In]; right; left; reflexivity).
  split; [exact H|].
  pose proof (naming_stays_in_regions header_two_banks fresh) as P.
  destruct P as (_ & P & _).
  exact (P 0xFFFC "RESET_vector"%string H).
Defined.
